(** * A shallow embedding of the RAG command-line pipeline

    The program has four Python modules:
    - [search_ddg.py]: [search_duckduckgo], the search stage;
    - [rag_agent.py]:  [rag_answer], context building and answer generation;
    - [evaluator.py]:  [evaluate_response] and [_fallback_evaluation];
    - [cli.py]:        [build_parser] and [main].

    Python text is modelled by [string], one character per code point below
    256.  Python dictionaries are [gmap]s, Python floats are IEEE binary64
    numbers ([spec_float] at precision 53), exceptions and the effects on the
    process (environment, standard output, outbound requests) are threaded
    through a small state-and-error monad.  The services the program talks
    to (search backend, completion endpoint, [json.loads], standard input)
    are the fields of a [world] the functions are parameterised by. *)

From Stdlib Require Import ZArith Bool Lia.
From Stdlib Require Import Floats.SpecFloat.
From stdpp Require Import gmap strings list pretty.

Set Warnings "-register-all".
Local Open Scope Z_scope.

(* ===================================================================== *)
(** * Python floats: IEEE 754 binary64 *)
(* ===================================================================== *)

Module PyFloat.

Definition prec : Z := 53.
Definition emax : Z := 1024.

Definition pyfloat : Type := spec_float.

Definition fmul : pyfloat -> pyfloat -> pyfloat := SFmul prec emax.
Definition fadd : pyfloat -> pyfloat -> pyfloat := SFadd prec emax.
Definition fdiv : pyfloat -> pyfloat -> pyfloat := SFdiv prec emax.

(** [float(z)] for a Python int: the nearest double, ties to even; an
    int beyond the range of doubles gives an infinity here, which the
    callers turn into [OverflowError]. *)
Definition of_int (z : Z) : pyfloat := binary_normalize prec emax z 0 false.

Definition is_inf (x : pyfloat) : bool :=
  match x with S754_infinity _ => true | _ => false end.

(** The correctly rounded quotient of two ints, [0 < d]: the double a
    decimal literal denotes ([0.3] is [ratio 3 10]) and the result of the
    true division [n / d]. *)
Definition ratio (n : Z) (d : positive) : pyfloat :=
  match n with
  | Z0 => S754_zero false
  | Zpos p => fdiv (S754_finite false p 0) (S754_finite false d 0)
  | Zneg p => fdiv (S754_finite true p 0) (S754_finite false d 0)
  end.

(** [n/d] rounded to the nearest integer, ties to even ([0 < d]). *)
Definition half_even (n d : Z) : Z :=
  let q := n / d in
  let r := n mod d in
  match 2 * r ?= d with
  | Lt => q
  | Gt => q + 1
  | Eq => if Z.even q then q else q + 1
  end.

(** [round(x, 1)] on a float: the exact binary value is rounded to one
    decimal digit (ties to even) and the decimal result is converted back
    to the nearest double; zeros, infinities and NaN are returned as they
    are, and so is a float that is already an integer. *)
Definition round1 (x : pyfloat) : pyfloat :=
  match x with
  | S754_finite s m e =>
      if 0 <=? e then x
      else match half_even (10 * Zpos m) (2 ^ (- e)) with
           | Zpos k => fdiv (S754_finite s k 0) (S754_finite false 10 0)
           | _ => S754_zero s
           end
  | _ => x
  end.

End PyFloat.

Import PyFloat.

(* ===================================================================== *)
(** * Python strings *)
(* ===================================================================== *)

Module PyStr.

Definition nl : string := String (Ascii.ascii_of_nat 10) EmptyString.
Definition dq : string := String (Ascii.ascii_of_nat 34) EmptyString.

(** The characters [[] and []]. *)
Definition lbracket : Ascii.ascii := Ascii.ascii_of_nat 91.
Definition rbracket : Ascii.ascii := Ascii.ascii_of_nat 93.

(** [str.isspace] on the code points below 256. *)
Definition is_space (a : Ascii.ascii) : bool :=
  let n := Ascii.nat_of_ascii a in
  ((9 <=? n) && (n <=? 13) || (28 <=? n) && (n <=? 32)
   || (n =? 133) || (n =? 160))%nat.

Fixpoint lstrip (s : string) : string :=
  match s with
  | String a s' => if is_space a then lstrip s' else s
  | EmptyString => EmptyString
  end.

Fixpoint rstrip (s : string) : string :=
  match s with
  | String a s' =>
      match rstrip s' with
      | EmptyString => if is_space a then EmptyString else String a EmptyString
      | t => String a t
      end
  | EmptyString => EmptyString
  end.

(** [s.strip()] *)
Definition strip (s : string) : string := rstrip (lstrip s).

(** [len(s.split())]: the number of maximal runs of non-space
    characters; [inword] tells whether the previous character was in a
    word. *)
Fixpoint count_words (inword : bool) (s : string) : nat :=
  match s with
  | EmptyString => 0%nat
  | String a s' =>
      if is_space a then count_words false s'
      else if inword then count_words true s'
           else S (count_words true s')
  end.

Definition split_len (s : string) : nat := count_words false s.

(** [c in s] for a one-character string [c]. *)
Fixpoint contains (c : Ascii.ascii) (s : string) : bool :=
  match s with
  | EmptyString => false
  | String a s' => Ascii.eqb a c || contains c s'
  end.

(** [sep.join(parts)] *)
Definition join (sep : string) (parts : list string) : string :=
  String.concat sep parts.

Definition is_empty (s : string) : bool :=
  match s with EmptyString => true | _ => false end.

End PyStr.

Import PyStr.

(* ===================================================================== *)
(** * Python values *)
(* ===================================================================== *)

(** What [json.loads] can return. *)
Inductive json : Type :=
| JNull
| JBool (b : bool)
| JInt (z : Z)
| JFloat (f : pyfloat)
| JStr (s : string)
| JList (l : list json)
| JDict (d : gmap string json).

(** The Python type name of a value, as error messages print it. *)
Definition type_name (v : json) : string :=
  match v with
  | JNull => "NoneType"
  | JBool _ => "bool"
  | JInt _ => "int"
  | JFloat _ => "float"
  | JStr _ => "str"
  | JList _ => "list"
  | JDict _ => "dict"
  end.

(** The values the [query] argument is given in this program and in the
    spec's examples. *)
Inductive pyval : Type :=
| PNone
| PBool (b : bool)
| PInt (z : Z)
| PStr (s : string).

Definition is_str (v : pyval) : bool :=
  match v with PStr _ => true | _ => false end.

Definition str_of (v : pyval) : string :=
  match v with
  | PNone => "None"
  | PBool true => "True"
  | PBool false => "False"
  | PInt z => pretty z
  | PStr s => s
  end.

(** Truth value of an optional string ([None] and the empty string are
    false), and Python's [a or b] on such values. *)
Definition truthy (v : option string) : bool :=
  match v with
  | Some s => negb (is_empty s)
  | None => false
  end.

Definition py_or (a b : option string) : option string :=
  if truthy a then a else b.

(** [v or d] where [d] is a string literal. *)
Definition or_default (v : option string) (d : string) : string :=
  match v with
  | Some s => if is_empty s then d else s
  | None => d
  end.

(** [str(v)] of an optional string, as an f-string renders it. *)
Definition opt_str (v : option string) : string :=
  match v with
  | Some s => s
  | None => "None"
  end.

(* ===================================================================== *)
(** * Exceptions, process state and the monad *)
(* ===================================================================== *)

Inductive exn_kind : Type :=
| TypeError | RuntimeError | KeyError | AttributeError | OverflowError
| EOFError | JSONDecodeError | APIError | SystemExit.

(** An exception: its class and [str(e)]. *)
Record exn : Type := Exn { exn_class : exn_kind; exn_str : string }.

(** A search result: the dictionary of lines 54 to 58, which always has
    the three keys; a value may be [None]. *)
Record SearchResult : Type := mkResult {
  title : option string;
  url : option string;
  description : option string
}.

Record message : Type := mkMessage { role : string; content : string }.

(** Outbound requests, in the order they are made. *)
Inductive request : Type :=
| SearchRequest (query safesearch timelimit : string)
| ChatRequest (api_key model : string) (messages : list message)
              (max_tokens : Z) (timeout : option Z).

(** A printed line: literal text and [str()] of values. *)
Inductive chunk : Type :=
| Text (s : string)
| Value (v : json).

Definition line : Type := list chunk.

Record proc : Type := mkProc {
  environ : gmap string string;
  stdout : list line;
  requests : list request
}.

Definition M (A : Type) : Type := proc -> (exn + A) * proc.

Definition ret {A} (a : A) : M A := fun p => (inr a, p).

Definition raise {A} (e : exn) : M A := fun p => (inl e, p).

Definition bind {A B} (c : M A) (k : A -> M B) : M B :=
  fun p =>
    match c p with
    | (inr a, p') => k a p'
    | (inl e, p') => (inl e, p')
    end.

Notation "'let*' x ':=' c 'in' k" := (bind c (fun x => k))
  (at level 10, x name, c at level 100, k at level 200).

Notation "c ';;' k" := (bind c (fun _ => k))
  (at level 100, k at level 200, right associativity).

(** [try: c  except Exception as e: h e] *)
Definition try_except {A} (c : M A) (h : exn -> M A) : M A :=
  fun p =>
    match c p with
    | (inl e, p') => h e p'
    | r => r
    end.

Definition lift {A} (r : exn + A) : M A := fun p => (r, p).

Definition print (l : line) : M unit :=
  fun p => (inr tt, mkProc (environ p) (stdout p ++ [l]) (requests p)).

Definition send (r : request) : M unit :=
  fun p => (inr tt, mkProc (environ p) (stdout p) (requests p ++ [r])).

Definition getenv (k : string) : M (option string) :=
  fun p => (inr (environ p !! k), p).

Definition setenv (k v : string) : M unit :=
  fun p => (inr tt, mkProc (<[k := v]> (environ p)) (stdout p) (requests p)).

(** [c] run from [p] returns [a] and leaves the process in [p']. *)
Definition returns {A} (c : M A) (p : proc) (a : A) (p' : proc) : Prop :=
  c p = (inr a, p').

(** [c] run from [p] raises [e]. *)
Definition raises {A} (c : M A) (p : proc) (e : exn) (p' : proc) : Prop :=
  c p = (inl e, p').

(** The process only grows: the environment is kept, printed lines and
    requests are appended. *)
Definition grows (p p' : proc) : Prop :=
  environ p' = environ p
  /\ (exists out, stdout p' = stdout p ++ out)
  /\ (exists reqs, requests p' = requests p ++ reqs).

(** A computation that only makes the process grow. *)
Definition monotone {A} (c : M A) : Prop := forall p, grows p (snd (c p)).

(* ===================================================================== *)
(** * The outside world *)
(* ===================================================================== *)

(** A backend result item: a dictionary from key names to text. *)
Definition item : Type := gmap string string.

(** The backend's result stream: it yields items and then ends, or raises
    at some point (possibly before the first item). *)
Inductive stream : Type :=
| SEnd
| SRaise (e : exn)
| SYield (it : item) (rest : stream).

(** The outcome of [client.chat.completions.create(...)] followed by
    [resp.choices[0].message.content]: an exception, or the content, which
    may be [None]. *)
Inductive chat_outcome : Type :=
| ChatRaises (e : exn)
| ChatContent (c : option string).

Record world : Type := mkWorld {
  (** the [ddgs] module's [DDGS().text], [None] when the import failed *)
  DDGS : option (string -> string -> string -> stream);
  (** the completion endpoint *)
  chat : request -> chat_outcome;
  (** [json.loads] *)
  json_loads : string -> exn + json;
  (** the line [input()] reads, [None] at end of file *)
  stdin : option string
}.

(** [client.chat.completions.create(...)] followed by
    [resp.choices[0].message.content.strip()], as both [rag_answer] and
    [evaluate_response] write it. *)
Definition completion (w : world) (r : request) : M string :=
  send r ;;
  match chat w r with
  | ChatRaises e => raise e
  | ChatContent None =>
      raise (Exn AttributeError "'NoneType' object has no attribute 'strip'")
  | ChatContent (Some text) => ret (strip text)
  end.

(** The ways the completion can fail: the call raises, or the reply has no
    content to strip. *)
Definition completion_fails (w : world) (r : request) (e : exn) : Prop :=
  chat w r = ChatRaises e
  \/ (chat w r = ChatContent None
      /\ e = Exn AttributeError "'NoneType' object has no attribute 'strip'").

(* ===================================================================== *)
(** * search_ddg.py *)
(* ===================================================================== *)

Module Search.

(** The dictionary built for one item (lines 53 to 58). *)
Definition to_result (it : item) : SearchResult :=
  {| title := it !! "title";
     url := py_or (py_or (it !! "link") (it !! "url")) (it !! "href");
     description := py_or (py_or (it !! "body") (it !! "desc")) None |}.

(** The [for] loop (lines 52 to 60): the collected results and the
    exception that interrupted the iteration, if any. *)
Fixpoint collect (max_results : Z) (st : stream) (results : list SearchResult)
  : list SearchResult * option exn :=
  match st with
  | SEnd => (results, None)
  | SRaise e => (results, Some e)
  | SYield it rest =>
      let results' := results ++ [to_result it] in
      if Z.of_nat (length results') >=? max_results then (results', None)
      else collect max_results rest results'
  end.

Section WithWorld.
Variable w : world.

Definition search_duckduckgo (query : pyval) (max_results : Z)
    (safesearch timelimit : string) : M (list SearchResult) :=
  match query with
  | PStr q =>
      match DDGS w with
      | None =>
          raise (Exn RuntimeError
            "ddgs library is not available. Install with 'pip install ddgs'")
      | Some text =>
          send (SearchRequest q safesearch timelimit) ;;
          match collect max_results (text q safesearch timelimit) [] with
          | (results, Some e) =>
              print [Text ("Error during DuckDuckGo search: " +:+ exn_str e)] ;;
              ret results
          | (results, None) => ret results
          end
      end
  | _ => raise (Exn TypeError "query must be a string")
  end.

End WithWorld.

(** The items a stream yields before it ends or raises, and the exception
    it raises, if it does. *)
Fixpoint stream_items (st : stream) : list item :=
  match st with
  | SYield it rest => it :: stream_items rest
  | _ => []
  end.

Fixpoint stream_end (st : stream) : option exn :=
  match st with
  | SEnd => None
  | SRaise e => Some e
  | SYield _ rest => stream_end rest
  end.

End Search.

(* ===================================================================== *)
(** * rag_agent.py *)
(* ===================================================================== *)

Module Rag.

Record AnswerResult : Type := mkAnswer {
  query : pyval;
  answer : string;
  sources : list SearchResult
}.

(** One entry of [docs] (lines 37 to 40), [i] counting from 1. *)
Definition context_block (i : nat) (r : SearchResult) : string :=
  "[" +:+ pretty i +:+ "] " +:+ or_default (title r) "(no title)" +:+ nl
  +:+ or_default (url r) "(no url)" +:+ nl
  +:+ or_default (description r) EmptyString.

(** [shown] is what a block shows for [field]: the field itself when it
    is present and not empty, the placeholder otherwise. *)
Definition reproduces (field : option string) (placeholder shown : string)
  : Prop :=
  match field with
  | Some s => if is_empty s then shown = placeholder else shown = s
  | None => shown = placeholder
  end.

Definition docs_of (results : list SearchResult) : list string :=
  imap (fun i r => context_block (S i) r) results.

Definition context_of (results : list SearchResult) : string :=
  join (nl +:+ nl) (docs_of results).

Definition system_prompt : string :=
  "You are a helpful assistant. Answer the user's question using only the content in provided"
  +:+ " webpages from search results. Cite sources by their number in square brackets, e.g. [1].".

Definition user_prompt (q context : string) : string :=
  "Question: " +:+ q +:+ nl +:+ nl +:+ "Search results:" +:+ nl +:+ context
  +:+ nl +:+ nl
  +:+ "Answer concisely and list which sources you used at the end.".

Definition generation_request (key model q context : string) : request :=
  ChatRequest key model
    [mkMessage "system" system_prompt; mkMessage "user" (user_prompt q context)]
    512 (Some 60).

Definition error_answer (e : exn) (context : string) : string :=
  "DeepSeek API error: " +:+ exn_str e +:+ nl +:+ nl
  +:+ "Fallback search results:" +:+ nl +:+ context.

Definition no_key_answer (context : string) : string :=
  "No DEEPSEEK_API_KEY set or `openai` package not found. Returning aggregated search snippets:"
  +:+ nl +:+ nl +:+ context.

Section WithWorld.
Variable w : world.

Definition rag_answer (query : pyval) (max_results : Z) (model : string)
  : M AnswerResult :=
  let* results := Search.search_duckduckgo w query max_results "moderate" "m" in
  let context := context_of results in
  let* api_key := getenv "DEEPSEEK_API_KEY" in
  if truthy api_key then
    try_except
      (let* answer :=
         completion w (generation_request (default EmptyString api_key) model
                       (str_of query) context) in
       ret (mkAnswer query answer results))
      (fun e => ret (mkAnswer query (error_answer e context) results))
  else
    ret (mkAnswer query (no_key_answer context) results).

End WithWorld.




End Rag.

(* ===================================================================== *)
(** * evaluator.py *)
(* ===================================================================== *)

Module Evaluator.

(** An evaluation report is a Python dictionary. *)
Abbreviation report := (gmap string json).

(** One line of [sources_text] (line 53).  The three keys are always in
    the dictionaries the search stage builds, so the defaults of [get] are
    never used and a [None] value is rendered as [None]. *)
Definition source_line (s : SearchResult) : string :=
  "- " +:+ opt_str (title s) +:+ ": " +:+ opt_str (url s) +:+ nl
  +:+ "  " +:+ opt_str (description s).

Definition sources_text (sources : list SearchResult) : string :=
  join nl (source_line <$> sources).

Definition eval_prompt (query answer : string) (sources : list SearchResult)
  : string :=
  join nl [
    "You are an expert evaluator assessing agent's responses to query based on sources materials used.";
    EmptyString;
    "User Query: " +:+ query;
    EmptyString;
    "Generated Answer:";
    answer;
    EmptyString;
    "Source Material Used:";
    sources_text sources;
    EmptyString;
    "Evaluate the response on these criteria:";
    "1. **Accuracy (0-10)**: How factually correct and supported by sources is the answer?";
    "2. **Relevance (0-10)**: How much and directly does the answer address the user's query?";
    "3. **Search quality (0-10)**: Does the search results complete and reflect up-to-date and authoritative information to the query?";
    "4. **Citation Quality (0-10)**: Are sources properly cited and used appropriately?";
    EmptyString;
    EmptyString;
    "Respond in JSON format only with this exact structure (no markdown, no code blocks):";
    "{";
    "  " +:+ dq +:+ "accuracy_score" +:+ dq +:+ ": <int 0-10>,";
    "  " +:+ dq +:+ "relevance_score" +:+ dq +:+ ": <int 0-10>,";
    "  " +:+ dq +:+ "search_quality" +:+ dq +:+ ": <int 0-10>,";
    "  " +:+ dq +:+ "citation_quality" +:+ dq +:+ ": <int 0-10>,";
    "  " +:+ dq +:+ "feedback" +:+ dq +:+ ": " +:+ dq
      +:+ "<brief explanation of scores>" +:+ dq +:+ ",";
    "  " +:+ dq +:+ "strengths" +:+ dq +:+ ": " +:+ dq
      +:+ "<what the response does well>" +:+ dq +:+ ",";
    "  " +:+ dq +:+ "opportunity" +:+ dq +:+ ": " +:+ dq
      +:+ "<what could be improved>" +:+ dq;
    "}" ].

Definition evaluation_request (key model prompt : string) : request :=
  ChatRequest key model [mkMessage "user" prompt] 512 None.

(** The float literals [0.3] and [0.1]. *)
Definition f0_3 : pyfloat := ratio 3 10.
Definition f0_1 : pyfloat := ratio 1 10.

(** [v * wt] for a float [wt]: ints and bools are converted to float
    first, the other values raise. *)
Definition times (v : json) (wt : pyfloat) : exn + pyfloat :=
  match v with
  | JFloat f => inr (fmul f wt)
  | JInt z =>
      if is_inf (of_int z)
      then inl (Exn OverflowError "int too large to convert to float")
      else inr (fmul (of_int z) wt)
  | JBool b => inr (fmul (of_int (if b then 1 else 0)) wt)
  | JStr _ | JList _ =>
      inl (Exn TypeError "can't multiply sequence by non-int of type 'float'")
  | JNull | JDict _ =>
      inl (Exn TypeError
             ("unsupported operand type(s) for *: '" +:+ type_name v
              +:+ "' and 'float'"))
  end.

(** [d.get(k, 5) * wt] *)
Definition term (d : report) (k : string) (wt : pyfloat) : exn + pyfloat :=
  times (default (JInt 5) (d !! k)) wt.

(** Lines 98 to 101: the terms are evaluated from left to right and the
    first one that raises ends the computation. *)
Definition weighted (d : report) : exn + pyfloat :=
  match term d "accuracy_score" f0_3 with
  | inl e => inl e
  | inr a =>
      match term d "relevance_score" f0_3 with
      | inl e => inl e
      | inr r =>
          match term d "search_quality" f0_3 with
          | inl e => inl e
          | inr s =>
              match term d "citation_quality" f0_1 with
              | inl e => inl e
              | inr c => inr (fadd (fadd (fadd a r) s) c)
              end
          end
      end
  end.

(** Lines 98 to 104 on the value [json.loads] returned: a value that is
    not a dictionary has no [get]. *)
Definition score (eval_dict : json) : exn + report :=
  match eval_dict with
  | JDict d =>
      match weighted d with
      | inl e => inl e
      | inr overall => inr (<["overall_score" := JFloat (round1 overall)]> d)
      end
  | v =>
      inl (Exn AttributeError
             ("'" +:+ type_name v +:+ "' object has no attribute 'get'"))
  end.

(** The dictionary of the [except] branch (lines 108 to 117). *)
Definition neutral_report (e : exn) : report :=
  <["accuracy_score" := JInt 5]>
  (<["relevance_score" := JInt 5]>
  (<["citation_quality" := JInt 5]>
  (<["search_quality" := JInt 5]>
  (<["overall_score" := JFloat (ratio 5 1)]>
  (<["feedback" := JStr ("Evaluation failed: " +:+ exn_str e
                         +:+ ". Using neutral scores.")]>
  (<["strengths" := JStr "Evaluation system error, unable to evaluate."]>
  (<["opportunity" := JStr "Evaluation system error, unable to evaluate."]>
   ∅))))))).

Definition _fallback_evaluation (query answer : string)
    (sources : list SearchResult) : M report :=
  let answer_len := split_len answer in
  let has_citations := contains lbracket answer && contains rbracket answer in
  let has_sources := (0 <? length sources)%nat in
  let accuracy := if has_sources then 6 else 4 in
  let relevance := if (20 <? answer_len)%nat then 7 else 5 in
  let citation := if has_citations then 8 else 4 in
  let* api_key := getenv "DEEPSEEK_API_KEY" in
  ret (<["accuracy_score" := JInt accuracy]>
      (<["relevance_score" := JInt relevance]>
      (<["citation_quality" := JInt citation]>
      (<["overall_score" :=
           JFloat (round1 (ratio (accuracy + relevance + citation) 3))]>
      (<["feedback" :=
           JStr "Heuristic evaluation (no LLM available). Actual quality may vary."]>
      (<["strengths" :=
           JStr (if (10 <? answer_len)%nat then "Response generated successfully"
                 else "Short response")]>
      (<["opportunity" :=
           JStr (if truthy api_key then "None detected"
                 else "Use OpenAI API key for evaluation")]>
       ∅))))))).

Section WithWorld.
Variable w : world.

Definition evaluate_response (query answer : string)
    (sources : list SearchResult) (model : string) : M report :=
  let* api_key := getenv "DEEPSEEK_API_KEY" in
  if negb (truthy api_key) then _fallback_evaluation query answer sources
  else
    let prompt := eval_prompt query answer sources in
    try_except
      (let* eval_text :=
         completion w
           (evaluation_request (default EmptyString api_key) model prompt) in
       let* eval_dict := lift (json_loads w eval_text) in
       lift (score eval_dict))
      (fun e => ret (neutral_report e)).

End WithWorld.

(** The float a score stands for in the weighted sum, when it has one. *)
Definition number (v : json) : option pyfloat :=
  match v with
  | JFloat f => Some f
  | JInt z => if is_inf (of_int z) then None else Some (of_int z)
  | JBool b => Some (of_int (if b then 1 else 0))
  | _ => None
  end.

(** The score under key [k], 5 when the key is missing. *)
Definition score_number (d : report) (k : string) : option pyfloat :=
  number (default (JInt 5) (d !! k)).

(** The weighted average as the specification writes it:
    [0.3*accuracy + 0.3*relevance + 0.3*search_quality
     + 0.1*citation_quality]. *)
Definition weighted_average (accuracy relevance search_quality
    citation_quality : pyfloat) : pyfloat :=
  fadd (fadd (fadd (fmul f0_3 accuracy) (fmul f0_3 relevance))
          (fmul f0_3 search_quality))
       (fmul f0_1 citation_quality).

(** The float of the decimal number [n/10]. *)
Definition tenths (n : Z) : pyfloat := ratio n 10.

(** The mean of three integer scores rounded to one decimal, in tenths. *)
Definition mean3_tenths (a b c : Z) : Z := half_even (10 * (a + b + c)) 3.

(** The keys of an evaluation report, as [main] prints them. *)
Definition report_keys : list string :=
  ["accuracy_score"; "relevance_score"; "search_quality"; "citation_quality";
   "overall_score"; "feedback"; "strengths"; "opportunity"].

(** The failures of the model path: the call or the reading of its reply
    fails, the reply is not JSON, or the parsed value cannot be scored. *)
Inductive evaluation_fails (w : world) (r : request) : exn -> Prop :=
| call_fails e :
    completion_fails w r e -> evaluation_fails w r e
| parse_fails text e :
    chat w r = ChatContent (Some text) ->
    json_loads w (strip text) = inl e ->
    evaluation_fails w r e
| scoring_fails text v e :
    chat w r = ChatContent (Some text) ->
    json_loads w (strip text) = inr v ->
    score v = inl e ->
    evaluation_fails w r e.

Definition is_dict (v : json) : bool :=
  match v with JDict _ => true | _ => false end.

Definition is_nan (x : pyfloat) : bool :=
  match x with S754_nan => true | _ => false end.

End Evaluator.

(* ===================================================================== *)
(** * cli.py *)
(* ===================================================================== *)

Module Cli.

(** The command line as [argparse] reads it with the parser of
    [build_parser]: positional words and options with their argument.
    [--max-results] has [type=int], so its argument arrives converted;
    the other options have no [type] and no [action], so what is stored
    is the text that was typed.  A line [argparse] cannot split this way
    (an unknown option, an option without its argument, a [--max-results]
    that is not an integer) is outside the model. *)
Inductive cli_arg : Type :=
| Positional (word : string)
| OptMaxResults (n : Z)
| OptModel (s : string)
| OptDeepseekKey (s : string)
| OptEvaluate (s : string)
| OptEvalModel (s : string).

Record Namespace : Type := mkNamespace {
  query : list string;
  max_results : Z;
  model : string;
  deepseek_key : option string;
  evaluate : pyval;
  eval_model : string
}.

(** The defaults [build_parser] declares (lines 16 to 21). *)
Definition build_parser : Namespace :=
  {| query := [];
     max_results := 5;
     model := "deepseek-chat";
     deepseek_key := None;
     evaluate := PBool true;
     eval_model := "deepseek-chat" |}.

Definition store (ns : Namespace) (a : cli_arg) : Namespace :=
  match a with
  | Positional word =>
      mkNamespace (query ns ++ [word]) (max_results ns) (model ns)
        (deepseek_key ns) (evaluate ns) (eval_model ns)
  | OptMaxResults n =>
      mkNamespace (query ns) n (model ns) (deepseek_key ns) (evaluate ns)
        (eval_model ns)
  | OptModel s =>
      mkNamespace (query ns) (max_results ns) s (deepseek_key ns)
        (evaluate ns) (eval_model ns)
  | OptDeepseekKey s =>
      mkNamespace (query ns) (max_results ns) (model ns) (Some s)
        (evaluate ns) (eval_model ns)
  | OptEvaluate s =>
      mkNamespace (query ns) (max_results ns) (model ns) (deepseek_key ns)
        (PStr s) (eval_model ns)
  | OptEvalModel s =>
      mkNamespace (query ns) (max_results ns) (model ns) (deepseek_key ns)
        (evaluate ns) s
  end.

(** [argparse] gives [query], which has [nargs='*'], the first run of
    consecutive positional words it meets and nothing after it: a
    positional word that comes after an option that follows the run is
    left over.  The three functions below are the three phases: before
    the run, inside it and after it; each returns the namespace and the
    words left over, in order. *)
Fixpoint parse_after_query (ns : Namespace) (argv : list cli_arg)
  : Namespace * list string :=
  match argv with
  | [] => (ns, [])
  | Positional word :: rest =>
      let r := parse_after_query ns rest in (fst r, word :: snd r)
  | a :: rest => parse_after_query (store ns a) rest
  end.

Fixpoint parse_in_query (ns : Namespace) (argv : list cli_arg)
  : Namespace * list string :=
  match argv with
  | [] => (ns, [])
  | Positional word :: rest => parse_in_query (store ns (Positional word)) rest
  | a :: rest => parse_after_query (store ns a) rest
  end.

Fixpoint parse_before_query (ns : Namespace) (argv : list cli_arg)
  : Namespace * list string :=
  match argv with
  | [] => (ns, [])
  | Positional word :: rest => parse_in_query (store ns (Positional word)) rest
  | a :: rest => parse_before_query (store ns a) rest
  end.

(** [ArgumentParser.parse_known_args]: the namespace and the words that
    were not recognized. *)
Definition parse_known_args (parser : Namespace) (argv : list cli_arg)
  : Namespace * list string :=
  parse_before_query parser argv.

(** [ArgumentParser.parse_args]: words left over are an error, reported
    on the error stream and ended with [sys.exit(2)].  [main] calls it
    outside every [try], so the exit leaves [main]. *)
Definition parse_args (parser : Namespace) (argv : list cli_arg)
  : exn + Namespace :=
  match parse_known_args parser argv with
  | (ns, []) => inr ns
  | (_, _ :: _) => inl (Exn SystemExit "2")
  end.

(** The truth value [if v:] tests. *)
Definition truth (v : pyval) : bool :=
  match v with
  | PNone => false
  | PBool b => b
  | PInt z => negb (z =? 0)
  | PStr s => negb (is_empty s)
  end.

(** [d[k]] *)
Definition getitem (d : gmap string json) (k : string) : M json :=
  match d !! k with
  | Some v => ret v
  | None => raise (Exn KeyError ("'" +:+ k +:+ "'"))
  end.

(** [print(f"{label}{d[k]}/10")] *)
Definition print_score (label : string) (d : gmap string json) (k : string)
  : M unit :=
  let* v := getitem d k in
  print [Text label; Value v; Text "/10"].

(** [print(f"{label}{d[k]}")] *)
Definition print_field (label : string) (d : gmap string json) (k : string)
  : M unit :=
  let* v := getitem d k in
  print [Text label; Value v].

(** The loop of lines 45 and 46, [i] being the number of the first
    source. *)
Fixpoint print_sources (i : nat) (sources : list SearchResult) : M unit :=
  match sources with
  | [] => ret tt
  | s :: rest =>
      print [Text (join " " ["[" +:+ pretty i +:+ "]"; opt_str (title s);
                             "-"; opt_str (url s)])] ;;
      print_sources (S i) rest
  end.

Definition evaluating_header : line :=
  [Text (nl +:+ "=== Evaluating Response ===" +:+ nl)].

Section WithWorld.
Variable w : world.

(** [input(prompt)] *)
Definition input (prompt : string) : M string :=
  print [Text prompt] ;;
  match stdin w with
  | Some l => ret l
  | None => raise (Exn EOFError "EOF when reading a line")
  end.

(** Lines 49 to 65. *)
Definition evaluation_stage (args : Namespace) (query : string)
    (out : Rag.AnswerResult) : M unit :=
  print evaluating_header ;;
  let* eval_result :=
    Evaluator.evaluate_response w query (Rag.answer out) (Rag.sources out)
      (eval_model args) in
  print_score "Accuracy Score:      " eval_result "accuracy_score" ;;
  print_score "Relevance Score:     " eval_result "relevance_score" ;;
  print_score "Search Quality:     " eval_result "search_quality" ;;
  print_score "Citation Quality:    " eval_result "citation_quality" ;;
  print_score "Overall Score:       " eval_result "overall_score" ;;
  print_field (nl +:+ "Feedback: ") eval_result "feedback" ;;
  print_field "Strengths: " eval_result "strengths" ;;
  print_field "Opportunity: " eval_result "opportunity".

Definition main (argv : list cli_arg) : M unit :=
  let* args := lift (parse_args build_parser argv) in
  (match deepseek_key args with
   | Some k => if is_empty k then ret tt else setenv "DEEPSEEK_API_KEY" k
   | None => ret tt
   end) ;;
  let* query :=
    match query args with
    | [] => input "Enter your query: "
    | words => ret (join " " words)
    end in
  let* out := Rag.rag_answer w (PStr query) (max_results args) (model args) in
  print [Text (nl +:+ "=== Generated Answer ===" +:+ nl)] ;;
  print [Text (Rag.answer out)] ;;
  print [Text (nl +:+ "=== Sources ===" +:+ nl)] ;;
  print_sources 1 (Rag.sources out) ;;
  if truth (evaluate args) then evaluation_stage args query out
  else ret tt.

End WithWorld.

(** The positional words of a command line, in order. *)
Definition positional_words (argv : list cli_arg) : list string :=
  omap (fun a => match a with Positional word => Some word | _ => None end)
    argv.

(** The line printed for source number [i]. *)
Definition source_row (i : nat) (s : SearchResult) : line :=
  [Text (join " " ["[" +:+ pretty i +:+ "]"; opt_str (title s); "-";
                   opt_str (url s)])].

(** All the arguments stored one after the other. *)
Definition store_all (ns : Namespace) (argv : list cli_arg) : Namespace :=
  fold_left store argv ns.

(** The report lines of lines 58 to 65: the key, the text before the
    value and whether the value is followed by the text /10. *)
Definition report_table : list (string * string * bool) :=
  [("accuracy_score", "Accuracy Score:      ", true);
   ("relevance_score", "Relevance Score:     ", true);
   ("search_quality", "Search Quality:     ", true);
   ("citation_quality", "Citation Quality:    ", true);
   ("overall_score", "Overall Score:       ", true);
   ("feedback", nl +:+ "Feedback: ", false);
   ("strengths", "Strengths: ", false);
   ("opportunity", "Opportunity: ", false)].

Definition report_row (label : string) (ten : bool) (v : json) : line :=
  if ten then [Text label; Value v; Text "/10"] else [Text label; Value v].

(** The rows of [table] in order, up to the first key that [d] does not
    have. *)
Fixpoint report_rows (d : gmap string json)
    (table : list (string * string * bool)) : list line :=
  match table with
  | [] => []
  | (k, label, ten) :: rest =>
      match d !! k with
      | Some v => report_row label ten v :: report_rows d rest
      | None => []
      end
  end.

(** The first of [keys] that dictionary [d] does not have. *)
Fixpoint first_missing (d : gmap string json) (keys : list string)
  : option string :=
  match keys with
  | [] => None
  | k :: rest =>
      match d !! k with
      | None => Some k
      | Some _ => first_missing d rest
      end
  end.

End Cli.

(* ===================================================================== *)
(** * Concrete worlds *)
(* ===================================================================== *)

Module Examples.

Definition item_full : item :=
  <["title" := "Ownership"]> (<["href" := "https://doc.rust-lang.org"]>
    (<["body" := "Ownership rules"]> ∅)).

Definition item_bare : item := <["url" := "https://example.org"]> ∅.

(** An item without title and url, and one whose title and url are the
    texts [rag_answer] shows for missing ones. *)
Definition item_untitled : item := <["body" := "Ownership rules"]> ∅.

Definition item_placeholders : item :=
  <["title" := "(no title)"]> (<["url" := "(no url)"]>
    (<["body" := "Ownership rules"]> ∅)).

(** A backend that yields two items for every query. *)
Definition two_items (q safesearch timelimit : string) : stream :=
  SYield item_full (SYield item_bare SEnd).

Definition timeout_error : exn := Exn APIError "Request timed out.".

Definition decode_error : exn :=
  Exn JSONDecodeError "Expecting value: line 1 column 1 (char 0)".

(** What multiplying a text by a float raises. *)
Definition sequence_error : exn :=
  Exn TypeError "can't multiply sequence by non-int of type 'float'".

(** The scores of the spec's weighted-average example. *)
Definition example_scores : gmap string json :=
  <["accuracy_score" := JInt 8]> (<["relevance_score" := JInt 6]>
    (<["search_quality" := JInt 7]> (<["citation_quality" := JInt 9]> ∅))).

(** A reply whose accuracy score is text. *)
Definition text_scores : gmap string json :=
  <["accuracy_score" := JStr "9"]> (<["relevance_score" := JInt 6]> ∅).

(** The reply of the model with the scores of [example_scores]. *)
Definition scores_reply : string :=
  "{" +:+ dq +:+ "accuracy_score" +:+ dq +:+ ": 8, "
  +:+ dq +:+ "relevance_score" +:+ dq +:+ ": 6, "
  +:+ dq +:+ "search_quality" +:+ dq +:+ ": 7, "
  +:+ dq +:+ "citation_quality" +:+ dq +:+ ": 9}".

(** The reply of the model with the scores of [text_scores]. *)
Definition text_reply : string :=
  "{" +:+ dq +:+ "accuracy_score" +:+ dq +:+ ": " +:+ dq +:+ "9" +:+ dq +:+ ", "
  +:+ dq +:+ "relevance_score" +:+ dq +:+ ": 6}".

(** No completion endpoint reachable, nothing on standard input. *)
Definition offline : world :=
  mkWorld (Some two_items) (fun _ => ChatRaises timeout_error)
    (fun _ => inl decode_error) None.

(** The endpoint answers every request with [reply], which [json.loads]
    reads as [parsed]. *)
Definition replying (reply : string) (parsed : exn + json) : world :=
  mkWorld (Some two_items) (fun _ => ChatContent (Some reply))
    (fun _ => parsed) None.

Definition fresh : proc := mkProc ∅ [] [].

Definition with_key : proc :=
  mkProc (<["DEEPSEEK_API_KEY" := "sk-test"]> ∅) [] [].

End Examples.

Module MoreExamples.


(** A backend that yields one item and then raises. *)
Definition one_then_error (q safesearch timelimit : string) : stream :=
  SYield Examples.item_full (SRaise Examples.timeout_error).


Definition flaky : world :=
  mkWorld (Some one_then_error) (fun _ => ChatRaises Examples.timeout_error)
    (fun _ => inl Examples.decode_error) None.

(** The [ddgs] module could not be imported. *)
Definition no_backend : world :=
  mkWorld None (fun _ => ChatRaises Examples.timeout_error)
    (fun _ => inl Examples.decode_error) None.

(** The user types [l] when asked for the query. *)
Definition typing (l : string) : world :=
  mkWorld (Some Examples.two_items) (fun _ => ChatRaises Examples.timeout_error)
    (fun _ => inl Examples.decode_error) (Some l).

(** A reply whose accuracy score is not a number. *)
Definition nan_scores : gmap string json :=
  <["accuracy_score" := JFloat S754_nan]> ∅.

End MoreExamples.

(* ===================================================================== *)
(** * The library functions on known values *)
(* ===================================================================== *)

(** [round(0.25, 1)] is [0.2] and [round(0.75, 1)] is [0.8]: ties go to the
    even digit; [round(0.35, 1)] is [0.3], the double of [0.35] being below
    the tie. *)
Example round1_ties :
  round1 (ratio 25 100) = ratio 2 10
  /\ round1 (ratio 75 100) = ratio 8 10
  /\ round1 (ratio 35 100) = ratio 3 10.
Proof. repeat split; vm_compute; reflexivity. Qed.

(** [13/3] rounds to [4.3], [17/3] to [5.7], and [round(-0.04, 1)] is
    [-0.0]. *)
Example round1_thirds :
  round1 (ratio 13 3) = ratio 43 10
  /\ round1 (ratio 17 3) = ratio 57 10
  /\ round1 (ratio (-4) 100) = S754_zero true.
Proof. repeat split; vm_compute; reflexivity. Qed.

(** [0.3] and [0.1] are the doubles [0x1.3333333333333p-2] and
    [0x1.999999999999ap-4]. *)
Example float_literals :
  ratio 3 10 = S754_finite false 5404319552844595 (-54)
  /\ ratio 1 10 = S754_finite false 7205759403792794 (-56).
Proof. split; vm_compute; reflexivity. Qed.

Example strip_example : strip "  a b  c  " = "a b  c".
Proof. vm_compute. reflexivity. Qed.

Example split_len_example :
  split_len "  a b  c " = 3%nat /\ split_len EmptyString = 0%nat.
Proof. split; vm_compute; reflexivity. Qed.

(* ===================================================================== *)
(** * Properties of the monad *)
(* ===================================================================== *)

Lemma grows_refl p : grows p p.
Proof.
  repeat split; [exists [] | exists []]; by rewrite app_nil_r.
Qed.

Lemma grows_trans p1 p2 p3 : grows p1 p2 -> grows p2 p3 -> grows p1 p3.
Proof.
  intros (He1 & [o1 Ho1] & [r1 Hr1]) (He2 & [o2 Ho2] & [r2 Hr2]).
  repeat split.
  - congruence.
  - exists (o1 ++ o2). by rewrite Ho2, Ho1, app_assoc.
  - exists (r1 ++ r2). by rewrite Hr2, Hr1, app_assoc.
Qed.

Lemma grows_print p l : grows p (snd (print l p)).
Proof. repeat split; simpl; [by exists [l] | exists []; by rewrite app_nil_r]. Qed.

Lemma grows_send p r : grows p (snd (send r p)).
Proof. repeat split; simpl; [exists []; by rewrite app_nil_r | by exists [r]]. Qed.

Lemma grows_stdout p p' l : grows p p' -> l ∈ stdout p -> l ∈ stdout p'.
Proof.
  intros (_ & [o Ho] & _) Hin. rewrite Ho. apply elem_of_app. by left.
Qed.

Lemma bind_returns {A B} (c : M A) (k : A -> M B) p a p' :
  c p = (inr a, p') -> bind c k p = k a p'.
Proof. unfold bind. by intros ->. Qed.

Lemma bind_raises {A B} (c : M A) (k : A -> M B) p e p' :
  c p = (inl e, p') -> bind c k p = (inl e, p').
Proof. unfold bind. by intros ->. Qed.

Lemma try_except_returns {A} (c : M A) h p a p' :
  c p = (inr a, p') -> try_except c h p = (inr a, p').
Proof. unfold try_except. by intros ->. Qed.

Lemma try_except_raises {A} (c : M A) h p e p' :
  c p = (inl e, p') -> try_except c h p = h e p'.
Proof. unfold try_except. by intros ->. Qed.

(* ===================================================================== *)
(** * The search stage *)
(* ===================================================================== *)

Module SearchFacts.
Import Search.

(** The loop stops at [max_results] when that is at least one. *)
Lemma collect_length_bound k st acc :
  Z.of_nat (length acc) < k ->
  Z.of_nat (length (fst (collect k st acc))) <= k.
Proof.
  revert acc. induction st as [|e|it rest IH]; intros acc Hacc; simpl; try lia.
  destruct (Z.of_nat (length (acc ++ [to_result it])) >=? k) eqn:Hk; simpl.
  - rewrite length_app in *. simpl in *. lia.
  - apply IH. lia.
Qed.

(** What is collected is never dropped. *)
Lemma collect_keeps k st r acc :
  exists more, fst (collect k st (r :: acc)) = r :: more.
Proof.
  revert acc. induction st as [|e|it' rest' IH]; intros acc; simpl;
    [by eexists | by eexists |].
  destruct (_ >=? k); simpl; [by eexists | apply (IH (acc ++ [_]))].
Qed.

(** Whatever [max_results] is, an item the backend yields first is kept. *)
Lemma collect_first k it rest :
  exists more, fst (collect k (SYield it rest) []) = to_result it :: more.
Proof.
  simpl. destruct (_ >=? k); simpl; [by exists []|].
  apply (collect_keeps k rest (to_result it) []).
Qed.

(** An empty result means the backend had nothing or raised at once. *)
Lemma collect_nil k st :
  fst (collect k st []) = [] -> st = SEnd \/ exists e, st = SRaise e.
Proof.
  destruct st as [|e|it rest]; [by left | right; by exists e |].
  intros H. destruct (collect_first k it rest) as [more Hm]. congruence.
Qed.

(** With a backend and a string query the search returns what the loop
    collected, after one request. *)
Lemma search_duckduckgo_str w text q k ss tl p :
  DDGS w = Some text ->
  exists p',
    search_duckduckgo w (PStr q) k ss tl p
    = (inr (fst (collect k (text q ss tl) [])), p')
    /\ grows p p'.
Proof.
  intros Hw. unfold search_duckduckgo. rewrite Hw.
  unfold bind at 1. simpl.
  destruct (collect k (text q ss tl) []) as [results [e|]]; simpl.
  - eexists. split; [reflexivity|].
    repeat split; simpl; [by eexists | by eexists].
  - eexists. split; [reflexivity|].
    repeat split; simpl; [exists []; by rewrite app_nil_r | by eexists].
Qed.

(** The search only appends to the process state. *)
Lemma search_duckduckgo_grows w query k ss tl p :
  grows p (snd (search_duckduckgo w query k ss tl p)).
Proof.
  destruct query as [| b | z | q]; try apply grows_refl.
  unfold search_duckduckgo.
  destruct (DDGS w) as [text|] eqn:Hw; [|apply grows_refl].
  destruct (search_duckduckgo_str w text q k ss tl p Hw) as (p' & Heq & Hg).
  unfold search_duckduckgo in Heq. rewrite Hw in Heq. by rewrite Heq.
Qed.

(** With [max_results] at least one, at most that many results come
    back. *)
Lemma search_length_bound w query k ss tl p results p' :
  1 <= k ->
  returns (search_duckduckgo w query k ss tl) p results p' ->
  Z.of_nat (length results) <= k.
Proof.
  intros Hk. unfold returns. destruct query as [| b | z | q]; try discriminate.
  destruct (DDGS w) as [text|] eqn:Hw.
  - destruct (search_duckduckgo_str w text q k ss tl p Hw) as (p1 & -> & _).
    intros [= <- _]. apply collect_length_bound. simpl. lia.
  - unfold search_duckduckgo. rewrite Hw. discriminate.
Qed.

(** An empty result comes from a backend with no item or one that raised
    at once. *)
Lemma search_empty_only_if w text q k ss tl p p' :
  DDGS w = Some text ->
  returns (search_duckduckgo w (PStr q) k ss tl) p [] p' ->
  text q ss tl = SEnd \/ exists e, text q ss tl = SRaise e.
Proof.
  intros Hw. unfold returns.
  destruct (search_duckduckgo_str w text q k ss tl p Hw) as (p1 & -> & _).
  intros [= H _]. by apply (collect_nil k).
Qed.

(** C9: a query that is not a string makes the search raise the
    [TypeError] of line 43 whatever the world is, with the process state
    untouched (no request was sent, nothing was printed), and
    [rag_answer] lets the same exception through to its caller. *)
Theorem search_rejects_non_string_query w query k ss tl model p :
  is_str query = false ->
  raises (search_duckduckgo w query k ss tl) p
    (Exn TypeError "query must be a string") p
  /\ raises (Rag.rag_answer w query k model) p
       (Exn TypeError "query must be a string") p.
Proof.
  intros Hq. destruct query; try discriminate; by split.
Qed.

Lemma search_rejects_non_string_query_witness :
  is_str (PInt 3) = false
  /\ (raises (search_duckduckgo Examples.offline (PInt 3) 5 "moderate" "m")
        Examples.fresh (Exn TypeError "query must be a string") Examples.fresh
      /\ raises (Rag.rag_answer Examples.offline (PInt 3) 5 "deepseek-chat")
           Examples.fresh (Exn TypeError "query must be a string")
           Examples.fresh).
Proof.
  split; [reflexivity|].
  apply (search_rejects_non_string_query Examples.offline (PInt 3)).
  reflexivity.
Defined.

(** C3, at [max_results] zero or below: the loop tests the bound only
    after it has appended, so the first item the backend yields is
    returned, one result more than the bound allows. *)
Theorem search_nonpositive_max_results w text q k ss tl p it rest :
  DDGS w = Some text ->
  text q ss tl = SYield it rest ->
  k <= 0 ->
  exists p',
    returns (search_duckduckgo w (PStr q) k ss tl) p [to_result it] p'
    /\ k < Z.of_nat (length [to_result it]).
Proof.
  intros Hw Hs Hk.
  destruct (search_duckduckgo_str w text q k ss tl p Hw) as (p' & Heq & _).
  exists p'. split; [|simpl; lia].
  unfold returns. rewrite Heq, Hs. simpl.
  destruct (Z.of_nat 1 >=? k) eqn:H1; [done|].
  rewrite Z.geb_leb in H1. apply Z.leb_gt in H1. lia.
Qed.

Lemma search_nonpositive_max_results_witness :
  exists p',
    returns (search_duckduckgo Examples.offline (PStr "rust ownership") 0
               "moderate" "m")
      Examples.fresh [to_result Examples.item_full] p'
    /\ 0 < Z.of_nat (length [to_result Examples.item_full]).
Proof.
  apply (search_nonpositive_max_results Examples.offline Examples.two_items
           "rust ownership" 0 "moderate" "m" Examples.fresh
           Examples.item_full (SYield Examples.item_bare SEnd));
    [reflexivity | reflexivity | lia].
Defined.

End SearchFacts.


(* ===================================================================== *)
(** * Answer generation *)
(* ===================================================================== *)

Module RagFacts.
Import Search Rag SearchFacts.

Lemma append_empty_r (s : string) : s +:+ EmptyString = s.
Proof.
  induction s as [|a s IH]; [done|].
  change (String a (s +:+ EmptyString) = String a s). by rewrite IH.
Qed.

Lemma append_assoc (s1 s2 s3 : string) :
  (s1 +:+ s2) +:+ s3 = s1 +:+ (s2 +:+ s3).
Proof.
  induction s1 as [|a s1 IH]; [done|].
  change (String a ((s1 +:+ s2) +:+ s3) = String a (s1 +:+ (s2 +:+ s3))).
  by rewrite IH.
Qed.

Lemma join_cons sep (y : string) (l : list string) :
  l <> [] -> join sep (y :: l) = y +:+ sep +:+ join sep l.
Proof. by destruct l. Qed.

(** Every part of a joined text occurs in it as it is. *)
Lemma join_middle sep (before : list string) part after :
  exists pre post, join sep (before ++ part :: after) = pre +:+ part +:+ post.
Proof.
  induction before as [|y before IH].
  - destruct after as [|z after].
    + exists EmptyString, EmptyString. by rewrite append_empty_r.
    + exists EmptyString. by eexists.
  - destruct IH as (pre & post & IH).
    change ((y :: before) ++ part :: after) with (y :: (before ++ part :: after)).
    rewrite join_cons by (by destruct before). rewrite IH.
    exists (y +:+ sep +:+ pre), post. by rewrite !append_assoc.
Qed.

Lemma docs_of_lookup results i r :
  results !! i = Some r -> docs_of results !! i = Some (context_block (S i) r).
Proof.
  intros Hr. unfold docs_of. by rewrite list_lookup_imap, Hr.
Qed.

Lemma context_of_block results i r :
  results !! i = Some r ->
  exists pre post, context_of results = pre +:+ context_block (S i) r +:+ post.
Proof.
  intros Hr. apply docs_of_lookup in Hr.
  unfold context_of. rewrite <- (take_drop_middle _ _ _ Hr).
  apply join_middle.
Qed.

Lemma or_default_reproduces field placeholder :
  reproduces field placeholder (or_default field placeholder).
Proof. destruct field as [s|]; simpl; [by destruct (is_empty s) | done]. Qed.

(** A string query and a search backend are all [rag_answer] needs to
    return. *)
Lemma rag_answer_returns w text q k model p :
  DDGS w = Some text ->
  exists out p',
    returns (rag_answer w (PStr q) k model) p out p'
    /\ grows p p'
    /\ query out = PStr q
    /\ sources out = fst (collect k (text q "moderate" "m") []).
Proof.
  intros Hw.
  destruct (search_duckduckgo_str w text q k "moderate" "m" p Hw)
    as (p1 & Hs & Hg).
  unfold returns, rag_answer. rewrite (bind_returns _ _ _ _ _ Hs).
  unfold bind at 1, getenv at 1.
  destruct (truthy (environ p1 !! "DEEPSEEK_API_KEY")).
  - unfold try_except, bind, completion, bind, send.
    destruct (chat w _) as [e|[reply|]]; simpl;
      (do 2 eexists; split; [reflexivity|]; split; [|done]);
      (eapply grows_trans; [exact Hg|]);
      (repeat split; simpl; [exists []; by rewrite app_nil_r | by eexists]).
  - do 2 eexists. split; [reflexivity|]. by split.
Qed.



(** C7, as the code has it: the block of every result occurs in the
    context as it was built, and it shows, after the index, the title, the
    url and the description in this order, each one verbatim when it is
    present and not empty; an absent or empty title is shown as
    [(no title)], an absent or empty url as [(no url)], an absent
    description as the empty text. *)
Theorem context_block_reproduces_present_fields results i r :
  results !! i = Some r ->
  exists pre post t u d,
    context_of results
    = pre +:+ ("[" +:+ pretty (S i) +:+ "] " +:+ t +:+ nl +:+ u +:+ nl +:+ d)
      +:+ post
    /\ reproduces (title r) "(no title)" t
    /\ reproduces (url r) "(no url)" u
    /\ reproduces (description r) EmptyString d.
Proof.
  intros Hr. destruct (context_of_block results i r Hr) as (pre & post & Hc).
  exists pre, post, (or_default (title r) "(no title)"),
    (or_default (url r) "(no url)"), (or_default (description r) EmptyString).
  split; [exact Hc|]. repeat split; apply or_default_reproduces.
Qed.

Lemma context_block_reproduces_present_fields_witness :
  exists pre post t u d,
    context_of [to_result Examples.item_full; to_result Examples.item_bare]
    = pre +:+ ("[" +:+ pretty 2%nat +:+ "] " +:+ t +:+ nl +:+ u +:+ nl +:+ d)
      +:+ post
    /\ reproduces (title (to_result Examples.item_bare)) "(no title)" t
    /\ reproduces (url (to_result Examples.item_bare)) "(no url)" u
    /\ reproduces (description (to_result Examples.item_bare)) EmptyString d.
Proof.
  apply (context_block_reproduces_present_fields
           [to_result Examples.item_full; to_result Examples.item_bare] 1
           (to_result Examples.item_bare)).
  reflexivity.
Defined.

(** C7, as the claim has it, fails: a result whose title and url are absent
    and a result whose title and url are the placeholder texts are
    different results of the search stage with the same block, so no
    reading of the block gives back the fields of both. *)
Lemma context_block_absent_fields_not_reproduced :
  title (to_result Examples.item_untitled) = None
  /\ url (to_result Examples.item_untitled) = None
  /\ title (to_result Examples.item_placeholders) = Some "(no title)"
  /\ url (to_result Examples.item_placeholders) = Some "(no url)"
  /\ context_block 1 (to_result Examples.item_untitled)
     = context_block 1 (to_result Examples.item_placeholders)
  /\ ~ (exists recover : string -> SearchResult,
         forall it : item,
           recover (context_block 1 (to_result it)) = to_result it).
Proof.
  assert (Hb : context_block 1 (to_result Examples.item_untitled)
               = context_block 1 (to_result Examples.item_placeholders))
    by (vm_compute; reflexivity).
  repeat split; try (vm_compute; reflexivity).
  intros [recover Hrec].
  pose proof (Hrec Examples.item_untitled) as H1.
  pose proof (Hrec Examples.item_placeholders) as H2.
  rewrite Hb, H2 in H1. vm_compute in H1. discriminate H1.
Qed.

End RagFacts.


(* ===================================================================== *)
(** * Evaluation *)
(* ===================================================================== *)

Module EvaluatorFacts.
Import Evaluator.

(** Binary64 multiplication is commutative. *)
Lemma fmul_comm (x y : pyfloat) : fmul x y = fmul y x.
Proof.
  unfold fmul.
  destruct x as [sx|sx| |sx mx ex], y as [sy|sy| |sy my ey]; simpl;
    try reflexivity; try (by rewrite xorb_comm).
  by rewrite xorb_comm, Pos.mul_comm, Z.add_comm.
Qed.

Lemma times_number v wt f : number v = Some f -> times v wt = inr (fmul f wt).
Proof.
  destruct v as [| b | z | g | s | l | d]; simpl; try discriminate.
  - by intros [= <-].
  - destruct (is_inf (of_int z)); [discriminate | by intros [= <-]].
  - by intros [= <-].
Qed.

Lemma times_not_number v wt : number v = None -> exists e, times v wt = inl e.
Proof.
  destruct v as [| b | z | g | s | l | d]; simpl; try discriminate;
    try (by eexists).
  destruct (is_inf (of_int z)); [by eexists | discriminate].
Qed.

(** The sum the code computes is the weighted average of the specification. *)
Lemma weighted_numbers d a r s c :
  score_number d "accuracy_score" = Some a ->
  score_number d "relevance_score" = Some r ->
  score_number d "search_quality" = Some s ->
  score_number d "citation_quality" = Some c ->
  weighted d = inr (weighted_average a r s c).
Proof.
  unfold score_number, weighted, term, weighted_average. intros Ha Hr Hs Hc.
  rewrite (times_number _ _ _ Ha), (times_number _ _ _ Hr),
    (times_number _ _ _ Hs), (times_number _ _ _ Hc).
  by rewrite (fmul_comm a), (fmul_comm r), (fmul_comm s), (fmul_comm c).
Qed.

Lemma score_numbers d a r s c :
  score_number d "accuracy_score" = Some a ->
  score_number d "relevance_score" = Some r ->
  score_number d "search_quality" = Some s ->
  score_number d "citation_quality" = Some c ->
  score (JDict d)
  = inr (<["overall_score" := JFloat (round1 (weighted_average a r s c))]> d).
Proof.
  intros Ha Hr Hs Hc. unfold score.
  by rewrite (weighted_numbers d a r s c Ha Hr Hs Hc).
Qed.

(** The model path up to the [except] branch. *)
Lemma evaluate_response_model_path w query answer sources model p key :
  environ p !! "DEEPSEEK_API_KEY" = Some key ->
  is_empty key = false ->
  let r := evaluation_request key model (eval_prompt query answer sources) in
  let p' := mkProc (environ p) (stdout p) (requests p ++ [r]) in
  evaluate_response w query answer sources model p
  = match chat w r with
    | ChatRaises e => (inr (neutral_report e), p')
    | ChatContent None =>
        (inr (neutral_report
                (Exn AttributeError "'NoneType' object has no attribute 'strip'")),
         p')
    | ChatContent (Some text) =>
        match json_loads w (strip text) with
        | inl e => (inr (neutral_report e), p')
        | inr v =>
            match score v with
            | inl e => (inr (neutral_report e), p')
            | inr report => (inr report, p')
            end
        end
    end.
Proof.
  intros Hkey Hne r p'. unfold evaluate_response.
  unfold bind at 1, getenv at 1. rewrite Hkey.
  destruct key as [|a key]; [done|]. simpl.
  unfold try_except, bind, completion, bind, send, lift, ret, raise. fold r.
  destruct (chat w r) as [e|[text|]]; try reflexivity.
  destruct (json_loads w (strip text)) as [e|v]; [reflexivity|].
  by destruct (score v).
Qed.

(** Without a key the heuristic path is taken. *)
Lemma evaluate_response_no_key w query answer sources model p :
  truthy (environ p !! "DEEPSEEK_API_KEY") = false ->
  evaluate_response w query answer sources model p
  = _fallback_evaluation query answer sources p.
Proof.
  intros Hkey. unfold evaluate_response.
  unfold bind at 1, getenv at 1. by rewrite Hkey.
Qed.

(** The evaluation never raises, and it keeps what was printed. *)
Lemma evaluate_response_returns w query answer sources model p :
  exists report p',
    returns (evaluate_response w query answer sources model) p report p'
    /\ grows p p'.
Proof.
  unfold returns.
  destruct (truthy (environ p !! "DEEPSEEK_API_KEY")) eqn:Hkey.
  - destruct (environ p !! "DEEPSEEK_API_KEY") as [key|] eqn:He; [|done].
    assert (Hne : is_empty key = false) by (by destruct key).
    rewrite (evaluate_response_model_path w query answer sources model p key He Hne).
    assert (Hg : grows p
              (mkProc (environ p) (stdout p)
                 (requests p ++ [evaluation_request key model
                                   (eval_prompt query answer sources)]))).
    { repeat split; simpl; [exists []; by rewrite app_nil_r | by eexists]. }
    destruct (chat w _) as [e|[text|]]; try (by do 2 eexists).
    destruct (json_loads w (strip text)) as [e|v]; [by do 2 eexists|].
    destruct (score v); by do 2 eexists.
  - rewrite evaluate_response_no_key by done.
    do 2 eexists. split; [reflexivity | apply grows_refl].
Qed.

(** A reply that is read and scored is returned scored. *)
Lemma evaluate_response_scored w query answer sources model p key text v report :
  environ p !! "DEEPSEEK_API_KEY" = Some key ->
  is_empty key = false ->
  chat w (evaluation_request key model (eval_prompt query answer sources))
  = ChatContent (Some text) ->
  json_loads w (strip text) = inr v ->
  score v = inr report ->
  exists p', returns (evaluate_response w query answer sources model) p report p'.
Proof.
  intros Hkey Hne Hchat Hjson Hscore. unfold returns.
  rewrite (evaluate_response_model_path w query answer sources model p key Hkey Hne).
  rewrite Hchat, Hjson, Hscore. by eexists.
Qed.

(** A failure of the model path gives the neutral report. *)
Lemma evaluate_response_neutral w query answer sources model p key e :
  environ p !! "DEEPSEEK_API_KEY" = Some key ->
  is_empty key = false ->
  evaluation_fails w
    (evaluation_request key model (eval_prompt query answer sources)) e ->
  exists p',
    returns (evaluate_response w query answer sources model) p
      (neutral_report e) p'.
Proof.
  intros Hkey Hne Hfail. unfold returns.
  rewrite (evaluate_response_model_path w query answer sources model p key Hkey Hne).
  destruct Hfail as [e [Hc | [Hc ->]] | text e Hc Hj | text v e Hc Hj Hs];
    rewrite Hc; try rewrite Hj; try rewrite Hs; by eexists.
Qed.

Lemma weighted_inr_numbers d x :
  weighted d = inr x ->
  exists a r s c,
    score_number d "accuracy_score" = Some a
    /\ score_number d "relevance_score" = Some r
    /\ score_number d "search_quality" = Some s
    /\ score_number d "citation_quality" = Some c.
Proof.
  unfold weighted, term, score_number. intros H.
  destruct (number (default (JInt 5) (d !! "accuracy_score"))) as [a|] eqn:Ha;
    [|destruct (times_not_number _ f0_3 Ha) as [e He]; by rewrite He in H].
  rewrite (times_number _ f0_3 _ Ha) in H.
  destruct (number (default (JInt 5) (d !! "relevance_score"))) as [r|] eqn:Hr;
    [|destruct (times_not_number _ f0_3 Hr) as [e He]; by rewrite He in H].
  rewrite (times_number _ f0_3 _ Hr) in H.
  destruct (number (default (JInt 5) (d !! "search_quality"))) as [s|] eqn:Hs;
    [|destruct (times_not_number _ f0_3 Hs) as [e He]; by rewrite He in H].
  rewrite (times_number _ f0_3 _ Hs) in H.
  destruct (number (default (JInt 5) (d !! "citation_quality"))) as [c|] eqn:Hc;
    [|destruct (times_not_number _ f0_1 Hc) as [e He]; by rewrite He in H].
  by exists a, r, s, c.
Qed.

(** Every value that is not an object with four such numbers makes the
    scoring raise. *)
Lemma score_not_numbers v :
  is_dict v = false
  \/ (exists d, v = JDict d
       /\ (score_number d "accuracy_score" = None
           \/ score_number d "relevance_score" = None
           \/ score_number d "search_quality" = None
           \/ score_number d "citation_quality" = None)) ->
  exists e, score v = inl e.
Proof.
  intros [Hv | (d & -> & Hnone)].
  - destruct v; try discriminate; by eexists.
  - simpl. destruct (weighted d) as [e|x] eqn:Hw; [by eexists|].
    destruct (weighted_inr_numbers d x Hw) as (a & r & s & c & Ha & Hr & Hs & Hc).
    destruct Hnone as [H|[H|[H|H]]]; congruence.
Qed.

(** An int beyond the range of floats is not a number of the weighted
    sum: [2**1024 * 0.3] raises [OverflowError]; [2**1023] is in range. *)
Example number_int_out_of_range :
  number (JInt (2 ^ 1024)) = None
  /\ times (JInt (2 ^ 1024)) f0_3
     = inl (Exn OverflowError "int too large to convert to float")
  /\ number (JInt (2 ^ 1023)) = Some (of_int (2 ^ 1023)).
Proof. vm_compute. repeat split. Qed.

(** Looking a key up in a dictionary written as a chain of insertions. *)
Ltac lookup_literal :=
  repeat (rewrite lookup_insert_ne by discriminate);
  first [apply lookup_insert_eq | apply lookup_empty].

Lemma neutral_report_overall e :
  neutral_report e !! "overall_score" = Some (JFloat (tenths 50)).
Proof.
  assert (Hfive : tenths 50 = ratio 5 1) by (vm_compute; reflexivity).
  rewrite Hfive. unfold neutral_report. lookup_literal.
Qed.

(** A reply that is read but cannot be scored gives the neutral report of
    the exception the scoring raised. *)
Lemma evaluate_response_unscored w query answer sources model p key text v :
  environ p !! "DEEPSEEK_API_KEY" = Some key ->
  is_empty key = false ->
  chat w (evaluation_request key model (eval_prompt query answer sources))
  = ChatContent (Some text) ->
  json_loads w (strip text) = inr v ->
  is_dict v = false
  \/ (exists d, v = JDict d
       /\ (score_number d "accuracy_score" = None
           \/ score_number d "relevance_score" = None
           \/ score_number d "search_quality" = None
           \/ score_number d "citation_quality" = None)) ->
  exists e p',
    score v = inl e
    /\ returns (evaluate_response w query answer sources model) p
         (neutral_report e) p'.
Proof.
  intros Hkey Hne Hchat Hjson Hv.
  destruct (score_not_numbers v Hv) as [e He].
  destruct (evaluate_response_neutral w query answer sources model p key e
              Hkey Hne (scoring_fails _ _ text v e Hchat Hjson He)) as [p' Hr].
  by exists e, p'.
Qed.

(** C1, as the code has it: with a key configured and a reply that
    [json.loads] reads,
    - when the value read is an object whose four scores, 5 standing for
      a missing one, are floats, bools or ints that convert to a float,
      the report's [overall_score] is
      [round(0.3*accuracy + 0.3*relevance + 0.3*search_quality
      + 0.1*citation_quality, 1)];
    - for every other value read, that is one that is not an object, or
      an object in which one of the four scores is something else (a
      text, [null], a list, an object, an int too large for a float),
      the report is the neutral report of the [except] branch, whose
      [overall_score] is 5.0;
    - for the scores 8, 6, 7 and 9 the weighted average is the float
      7.2. *)
Theorem overall_score_weighted_average
    w query answer sources model p key text v :
  environ p !! "DEEPSEEK_API_KEY" = Some key ->
  is_empty key = false ->
  chat w (evaluation_request key model (eval_prompt query answer sources))
  = ChatContent (Some text) ->
  json_loads w (strip text) = inr v ->
  (forall d a r s c,
     v = JDict d ->
     score_number d "accuracy_score" = Some a ->
     score_number d "relevance_score" = Some r ->
     score_number d "search_quality" = Some s ->
     score_number d "citation_quality" = Some c ->
     exists report p',
       returns (evaluate_response w query answer sources model) p report p'
       /\ report !! "overall_score"
          = Some (JFloat (round1 (weighted_average a r s c))))
  /\ (is_dict v = false
      \/ (exists d, v = JDict d
           /\ (score_number d "accuracy_score" = None
               \/ score_number d "relevance_score" = None
               \/ score_number d "search_quality" = None
               \/ score_number d "citation_quality" = None)) ->
      exists e p',
        score v = inl e
        /\ returns (evaluate_response w query answer sources model) p
             (neutral_report e) p'
        /\ neutral_report e !! "overall_score" = Some (JFloat (tenths 50)))
  /\ round1 (weighted_average (of_int 8) (of_int 6) (of_int 7) (of_int 9))
     = tenths 72.
Proof.
  intros Hkey Hne Hchat Hjson.
  split; [|split; [|vm_compute; reflexivity]].
  - intros d a r s c -> Ha Hr Hs Hc.
    destruct (evaluate_response_scored w query answer sources model p key text
                (JDict d) _ Hkey Hne Hchat Hjson
                (score_numbers d a r s c Ha Hr Hs Hc)) as [p' Hret].
    do 2 eexists. split; [exact Hret|]. apply lookup_insert_eq.
  - intros Hv.
    destruct (evaluate_response_unscored w query answer sources model p key text
                v Hkey Hne Hchat Hjson Hv) as (e & p' & He & Hret).
    exists e, p'. split; [exact He|]. split; [exact Hret|].
    apply neutral_report_overall.
Qed.

Lemma overall_score_weighted_average_witness :
  (exists report p',
     returns
       (evaluate_response
          (Examples.replying Examples.scores_reply
             (inr (JDict Examples.example_scores)))
          "rust ownership" "Ownership [1]" [] "deepseek-chat")
       Examples.with_key report p'
     /\ report !! "overall_score"
        = Some (JFloat (round1 (weighted_average (of_int 8) (of_int 6)
                                  (of_int 7) (of_int 9)))))
  /\ round1 (weighted_average (of_int 8) (of_int 6) (of_int 7) (of_int 9))
     = tenths 72.
Proof.
  destruct (overall_score_weighted_average
              (Examples.replying Examples.scores_reply
                 (inr (JDict Examples.example_scores)))
              "rust ownership" "Ownership [1]" [] "deepseek-chat"
              Examples.with_key "sk-test" Examples.scores_reply
              (JDict Examples.example_scores))
    as (Hscored & _ & Hexample);
    [vm_compute; reflexivity | reflexivity | vm_compute; reflexivity
    | vm_compute; reflexivity |].
  split; [|exact Hexample].
  apply (Hscored Examples.example_scores);
    [reflexivity | vm_compute; reflexivity | vm_compute; reflexivity
    | vm_compute; reflexivity | vm_compute; reflexivity].
Defined.

(** C1, as the claim has it, fails: for the scores 8, 6, 7 and 9 the
    report's [overall_score] is the float 7.2, which is not 6.9; and a
    reply that parses as JSON but gives a score as text gets the neutral
    5.0 of the [except] branch. *)
Lemma overall_score_example_is_7_2 :
  (exists p',
     returns
       (evaluate_response
          (Examples.replying Examples.scores_reply
             (inr (JDict Examples.example_scores)))
          "rust ownership" "Ownership [1]" [] "deepseek-chat")
       Examples.with_key
       (<["overall_score" := JFloat (tenths 72)]> Examples.example_scores) p')
  /\ tenths 72 <> tenths 69
  /\ (exists p',
        returns
          (evaluate_response
             (Examples.replying Examples.text_reply
                (inr (JDict Examples.text_scores)))
             "rust ownership" "Ownership [1]" [] "deepseek-chat")
          Examples.with_key (neutral_report Examples.sequence_error) p')
  /\ neutral_report Examples.sequence_error !! "overall_score"
     = Some (JFloat (tenths 50)).
Proof.
  split; [|split; [|split]].
  - assert (Hseven : round1 (weighted_average (of_int 8) (of_int 6) (of_int 7)
                              (of_int 9)) = tenths 72)
      by (vm_compute; reflexivity).
    rewrite <- Hseven.
    apply (evaluate_response_scored _ _ _ _ _ _ "sk-test" Examples.scores_reply
             (JDict Examples.example_scores));
      [vm_compute; reflexivity | reflexivity | vm_compute; reflexivity
      | vm_compute; reflexivity |].
    apply score_numbers; vm_compute; reflexivity.
  - vm_compute. discriminate.
  - apply (evaluate_response_neutral _ _ _ _ _ _ "sk-test");
      [vm_compute; reflexivity | reflexivity |].
    apply (scoring_fails _ _ Examples.text_reply (JDict Examples.text_scores));
      vm_compute; reflexivity.
  - vm_compute. reflexivity.
Qed.

(** C10, as the code has it: with a key configured and a reply that
    [json.loads] reads,
    - when the value read is an object whose four scores, 5 standing for
      a missing one, are floats, bools or ints that convert to a float,
      the returned report is that object with [overall_score] set; under
      every other key the report holds what the object holds, so a
      missing score stays missing and a present value is returned as it
      is;
    - for every other value read, that is one that is not an object, or
      an object in which one of the four scores is something else, the
      value read is dropped: the report is the neutral report of the
      exception the scoring raised. *)
Theorem report_is_parsed_object_with_overall_score
    w query answer sources model p key text v :
  environ p !! "DEEPSEEK_API_KEY" = Some key ->
  is_empty key = false ->
  chat w (evaluation_request key model (eval_prompt query answer sources))
  = ChatContent (Some text) ->
  json_loads w (strip text) = inr v ->
  (forall d a r s c,
     v = JDict d ->
     score_number d "accuracy_score" = Some a ->
     score_number d "relevance_score" = Some r ->
     score_number d "search_quality" = Some s ->
     score_number d "citation_quality" = Some c ->
     exists overall p',
       returns (evaluate_response w query answer sources model) p
         (<["overall_score" := JFloat overall]> d) p'
       /\ forall k, k <> "overall_score" ->
            (<["overall_score" := JFloat overall]> d) !! k = d !! k)
  /\ (is_dict v = false
      \/ (exists d, v = JDict d
           /\ (score_number d "accuracy_score" = None
               \/ score_number d "relevance_score" = None
               \/ score_number d "search_quality" = None
               \/ score_number d "citation_quality" = None)) ->
      exists e p',
        score v = inl e
        /\ returns (evaluate_response w query answer sources model) p
             (neutral_report e) p').
Proof.
  intros Hkey Hne Hchat Hjson. split.
  - intros d a r s c -> Ha Hr Hs Hc.
    destruct (evaluate_response_scored w query answer sources model p key text
                (JDict d) _ Hkey Hne Hchat Hjson
                (score_numbers d a r s c Ha Hr Hs Hc)) as [p' Hret].
    do 2 eexists. split; [exact Hret|].
    intros k Hk. by apply lookup_insert_ne.
  - apply (evaluate_response_unscored w query answer sources model p key text
             v Hkey Hne Hchat Hjson).
Qed.

Lemma report_is_parsed_object_with_overall_score_witness :
  exists overall p',
    returns
      (evaluate_response
         (Examples.replying Examples.scores_reply
            (inr (JDict Examples.example_scores)))
         "rust ownership" "Ownership [1]" [] "deepseek-chat")
      Examples.with_key
      (<["overall_score" := JFloat overall]> Examples.example_scores) p'
    /\ forall k, k <> "overall_score" ->
         (<["overall_score" := JFloat overall]> Examples.example_scores) !! k
         = Examples.example_scores !! k.
Proof.
  destruct (report_is_parsed_object_with_overall_score
              (Examples.replying Examples.scores_reply
                 (inr (JDict Examples.example_scores)))
              "rust ownership" "Ownership [1]" [] "deepseek-chat"
              Examples.with_key "sk-test" Examples.scores_reply
              (JDict Examples.example_scores))
    as (Hscored & _);
    [vm_compute; reflexivity | reflexivity | vm_compute; reflexivity
    | vm_compute; reflexivity |].
  apply (Hscored Examples.example_scores (of_int 8) (of_int 6) (of_int 7)
           (of_int 9));
    [reflexivity | vm_compute; reflexivity | vm_compute; reflexivity
    | vm_compute; reflexivity | vm_compute; reflexivity].
Defined.

(** C10, as the claim has it, fails: a reply that parses as a JSON object
    with the accuracy score given as the text 9 is not returned with
    [overall_score] added; the report is the neutral one, where the score
    is the int 5. *)
Lemma text_score_is_replaced_by_neutral_report :
  (exists p',
     returns
       (evaluate_response
          (Examples.replying Examples.text_reply
             (inr (JDict Examples.text_scores)))
          "rust ownership" "Ownership [1]" [] "deepseek-chat")
       Examples.with_key (neutral_report Examples.sequence_error) p')
  /\ Examples.text_scores !! "accuracy_score" = Some (JStr "9")
  /\ neutral_report Examples.sequence_error !! "accuracy_score" = Some (JInt 5)
  /\ ~ (exists v,
          neutral_report Examples.sequence_error
          = <["overall_score" := v]> Examples.text_scores).
Proof.
  split; [|split; [|split]].
  - apply (evaluate_response_neutral _ _ _ _ _ _ "sk-test");
      [vm_compute; reflexivity | reflexivity |].
    apply (scoring_fails _ _ Examples.text_reply (JDict Examples.text_scores));
      vm_compute; reflexivity.
  - vm_compute. reflexivity.
  - vm_compute. reflexivity.
  - intros [v Heq].
    apply (f_equal (fun m : gmap string json => m !! "accuracy_score")) in Heq.
    rewrite lookup_insert_ne in Heq by discriminate.
    vm_compute in Heq. discriminate Heq.
Qed.




(** The report of the heuristic path, as the code computes it. *)
Lemma evaluate_response_heuristic w query answer sources model p :
  truthy (environ p !! "DEEPSEEK_API_KEY") = false ->
  let accuracy := if (0 <? length sources)%nat then 6 else 4 in
  let relevance := if (20 <? split_len answer)%nat then 7 else 5 in
  let citation :=
    if contains lbracket answer && contains rbracket answer then 8 else 4 in
  exists report,
    returns (evaluate_response w query answer sources model) p report p
    /\ report !! "accuracy_score" = Some (JInt accuracy)
    /\ report !! "relevance_score" = Some (JInt relevance)
    /\ report !! "citation_quality" = Some (JInt citation)
    /\ report !! "overall_score"
       = Some (JFloat (round1 (ratio (accuracy + relevance + citation) 3)))
    /\ report !! "search_quality" = None.
Proof.
  intros Hkey accuracy relevance citation. unfold returns.
  rewrite evaluate_response_no_key by done.
  unfold _fallback_evaluation, bind, getenv, ret.
  eexists. split; [reflexivity|].
  fold accuracy relevance citation.
  repeat split; lookup_literal.
Qed.

(** C4: without a key (none, or an empty one) [evaluate_response] returns
    the heuristic report and leaves the process as it was: accuracy is 6
    with at least one source and 4 with none, relevance is 7 for an answer
    of more than 20 words and 5 otherwise, citation quality is 8 when the
    answer has both a [[] and a []] and 4 otherwise, [overall_score] is the
    float of their mean rounded to one decimal, and there is no
    [search_quality]. *)
Theorem fallback_evaluation_scores w query answer sources model p :
  truthy (environ p !! "DEEPSEEK_API_KEY") = false ->
  let accuracy := match sources with [] => 4 | _ :: _ => 6 end in
  let relevance := if (20 <? split_len answer)%nat then 7 else 5 in
  let citation :=
    if contains lbracket answer && contains rbracket answer then 8 else 4 in
  exists report,
    returns (evaluate_response w query answer sources model) p report p
    /\ report !! "accuracy_score" = Some (JInt accuracy)
    /\ report !! "relevance_score" = Some (JInt relevance)
    /\ report !! "citation_quality" = Some (JInt citation)
    /\ report !! "overall_score"
       = Some (JFloat (tenths (mean3_tenths accuracy relevance citation)))
    /\ report !! "search_quality" = None.
Proof.
  intros Hkey accuracy relevance citation.
  destruct (evaluate_response_heuristic w query answer sources model p Hkey)
    as (report & Hret & Ha & Hr & Hc & Ho & Hs).
  assert (Hacc : (if (0 <? length sources)%nat then 6 else 4) = accuracy)
    by (by destruct sources).
  rewrite Hacc in Ha, Ho. fold relevance citation in Hr, Hc, Ho.
  assert (Hmean : round1 (ratio (accuracy + relevance + citation) 3)
                  = tenths (mean3_tenths accuracy relevance citation)).
  { subst accuracy relevance citation.
    destruct sources, (20 <? split_len answer)%nat,
      (contains lbracket answer && contains rbracket answer);
      vm_compute; reflexivity. }
  rewrite Hmean in Ho. by exists report.
Qed.

Lemma fallback_evaluation_scores_witness :
  exists report,
    returns
      (evaluate_response Examples.offline "rust ownership" "Ownership [1]"
         [Search.to_result Examples.item_full] "deepseek-chat")
      Examples.fresh report Examples.fresh
    /\ report !! "accuracy_score" = Some (JInt 6)
    /\ report !! "relevance_score" = Some (JInt 5)
    /\ report !! "citation_quality" = Some (JInt 8)
    /\ report !! "overall_score" = Some (JFloat (tenths (mean3_tenths 6 5 8)))
    /\ report !! "search_quality" = None.
Proof.
  apply (fallback_evaluation_scores Examples.offline "rust ownership"
           "Ownership [1]" [Search.to_result Examples.item_full]
           "deepseek-chat" Examples.fresh).
  vm_compute. reflexivity.
Defined.

End EvaluatorFacts.


(* ===================================================================== *)
(** * The command line *)
(* ===================================================================== *)

Module CliFacts.
Import Search Rag Evaluator Cli SearchFacts RagFacts EvaluatorFacts.

Create HintDb mono.

Lemma monotone_ret {A} (a : A) : monotone (ret a).
Proof. intros p. apply grows_refl. Qed.

Lemma monotone_raise {A} e : monotone (@raise A e).
Proof. intros p. apply grows_refl. Qed.

Lemma monotone_lift {A} (r : exn + A) : monotone (lift r).
Proof. intros p. apply grows_refl. Qed.

Lemma monotone_getenv k : monotone (getenv k).
Proof. intros p. apply grows_refl. Qed.

Lemma monotone_print l : monotone (print l).
Proof. intros p. apply grows_print. Qed.

Lemma monotone_send r : monotone (send r).
Proof. intros p. apply grows_send. Qed.

Lemma monotone_bind {A B} (c : M A) (k : A -> M B) :
  monotone c -> (forall a, monotone (k a)) -> monotone (bind c k).
Proof.
  intros Hc Hk p. unfold bind. specialize (Hc p).
  destruct (c p) as [[e|a] p1]; simpl in *; [done|].
  eapply grows_trans; [exact Hc | apply Hk].
Qed.

Lemma monotone_try_except {A} (c : M A) h :
  monotone c -> (forall e, monotone (h e)) -> monotone (try_except c h).
Proof.
  intros Hc Hh p. unfold try_except. specialize (Hc p).
  destruct (c p) as [[e|a] p1]; simpl in *; [|done].
  eapply grows_trans; [exact Hc | apply Hh].
Qed.

#[local] Hint Resolve monotone_ret monotone_raise monotone_lift monotone_getenv
  monotone_print monotone_send : mono.
#[local] Hint Extern 2 (monotone (bind _ _)) =>
  apply monotone_bind; [|intros ?] : mono.
#[local] Hint Extern 2 (monotone (try_except _ _)) =>
  apply monotone_try_except; [|intros ?] : mono.
#[local] Hint Extern 3 (monotone (if ?b then _ else _)) => destruct b : mono.
#[local] Hint Extern 3 (monotone (match ?x with _ => _ end)) => destruct x : mono.

Lemma monotone_completion w r : monotone (completion w r).
Proof. unfold completion. auto 10 with mono. Qed.

Lemma monotone_search w query k ss tl : monotone (search_duckduckgo w query k ss tl).
Proof. intros p. apply search_duckduckgo_grows. Qed.

#[local] Hint Resolve monotone_completion monotone_search : mono.

Lemma monotone_rag_answer w query k model : monotone (rag_answer w query k model).
Proof. unfold rag_answer. auto 10 with mono. Qed.

Lemma monotone_evaluate_response w query answer sources model :
  monotone (evaluate_response w query answer sources model).
Proof. unfold evaluate_response, _fallback_evaluation. auto 10 with mono. Qed.

Lemma monotone_getitem d k : monotone (getitem d k).
Proof. unfold getitem. auto with mono. Qed.

#[local] Hint Resolve monotone_rag_answer monotone_evaluate_response monotone_getitem : mono.

Lemma monotone_print_score label d k : monotone (print_score label d k).
Proof. unfold print_score. auto with mono. Qed.

Lemma monotone_print_field label d k : monotone (print_field label d k).
Proof. unfold print_field. auto with mono. Qed.

Lemma monotone_print_sources i l : monotone (print_sources i l).
Proof. revert i. induction l as [|s l IH]; intros i; simpl; auto with mono. Qed.

#[local] Hint Resolve monotone_print_score monotone_print_field monotone_print_sources : mono.

Lemma print_sources_returns i l p :
  exists p', returns (print_sources i l) p tt p' /\ grows p p'.
Proof.
  revert i p. induction l as [|s l IH]; intros i p; simpl.
  - exists p. split; [done | apply grows_refl].
  - unfold bind at 1. simpl.
    destruct (IH (S i) (snd (print [Text (join " " ["[" +:+ pretty i +:+ "]"; opt_str (title s); "-"; opt_str (url s)])] p))) as (p' & Hr & Hg).
    exists p'. split; [exact Hr|].
    eapply grows_trans; [apply grows_print | exact Hg].
Qed.

Lemma evaluation_stage_prints_header w args query out p :
  evaluating_header ∈ stdout (snd (evaluation_stage w args query out p)).
Proof.
  unfold evaluation_stage. unfold bind at 1. simpl.
  match goal with |- context [snd (?c ?p0)] =>
    assert (Hg : grows p0 (snd (c p0))) end.
  { apply monotone_bind; [auto with mono|]. intros r. auto 20 with mono. }
  eapply grows_stdout; [exact Hg|]. simpl. apply elem_of_app. right. apply list_elem_of_singleton.
  reflexivity.
Qed.

(** What [main] does before the evaluation stage. *)
Lemma main_before_evaluation w text argv args p q1 qs :
  DDGS w = Some text ->
  parse_args build_parser argv = inr args ->
  deepseek_key args = None ->
  query args = q1 :: qs ->
  exists out p1,
    grows p p1
    /\ main w argv p
       = (if truth (evaluate args)
          then evaluation_stage w args (join " " (q1 :: qs)) out p1
          else (inr tt, p1)).
Proof.
  intros Hw Hargs Hkey Hq. unfold main. rewrite Hargs.
  unfold bind at 1, lift at 1. cbv beta iota. rewrite Hkey, Hq.
  unfold bind at 1. unfold ret at 1. unfold bind at 1. unfold ret at 1.
  destruct (rag_answer_returns w text (join " " (q1 :: qs)) (max_results args)
              (model args) p Hw) as (out & p1 & Hr & Hg1 & _ & _).
  rewrite (bind_returns _ _ _ _ _ Hr).
  unfold bind at 1, print at 1. unfold bind at 1, print at 1.
  unfold bind at 1, print at 1.
  match goal with |- context [bind (print_sources 1 ?l) _ ?p0] =>
    destruct (print_sources_returns 1 l p0) as (p2 & Hp & Hg2);
    rewrite (bind_returns _ _ _ _ _ Hp) end.
  exists out, p2. split; [|by destruct (truth (evaluate args))].
  eapply grows_trans; [exact Hg1|]. eapply grows_trans; [|exact Hg2].
  repeat split; simpl; [eexists; by rewrite <- !app_assoc | exists []; by rewrite app_nil_r].
Qed.


Lemma print_score_returns label d k v p :
  d !! k = Some v ->
  print_score label d k p = print [Text label; Value v; Text "/10"] p.
Proof. intros Hk. unfold print_score, bind, getitem. by rewrite Hk. Qed.

Lemma print_score_raises label d k p :
  d !! k = None ->
  print_score label d k p = (inl (Exn KeyError ("'" +:+ k +:+ "'")), p).
Proof. intros Hk. unfold print_score, bind, getitem. by rewrite Hk. Qed.

(** Without a key the evaluation stage stops at the third score. *)
Lemma evaluation_stage_no_key w args query out p :
  truthy (environ p !! "DEEPSEEK_API_KEY") = false ->
  exists p',
    raises (evaluation_stage w args query out) p
      (Exn KeyError "'search_quality'") p'
    /\ grows p p'.
Proof.
  intros Hkey. unfold raises, evaluation_stage.
  unfold bind at 1, print at 1.
  match goal with |- context [bind (evaluate_response _ _ _ _ _) _ ?p0] =>
    destruct (evaluate_response_heuristic w query (answer out) (sources out)
                (eval_model args) p0 Hkey)
      as (report & Hr & Hacc & Hrel & _ & _ & Hsq);
    rewrite (bind_returns _ _ _ _ _ Hr) end.
  unfold bind at 1. rewrite (print_score_returns _ _ _ _ _ Hacc). unfold print at 1.
  unfold bind at 1. rewrite (print_score_returns _ _ _ _ _ Hrel). unfold print at 1.
  unfold bind at 1. rewrite (print_score_raises _ _ _ _ Hsq).
  eexists. split; [reflexivity|].
  repeat split; simpl; [eexists; by rewrite <- !app_assoc | exists []; by rewrite app_nil_r].
Qed.

(** C2, where the code breaks it: with a search backend, no key in the
    environment and the default options, [main] prints the answer and the
    sources, starts the evaluation and then raises [KeyError] for
    [search_quality], a key the heuristic report does not have; the
    exception leaves [main]. *)
Theorem main_without_key_raises_key_error w text q p :
  DDGS w = Some text ->
  truthy (environ p !! "DEEPSEEK_API_KEY") = false ->
  exists p',
    raises (main w [Positional q]) p (Exn KeyError "'search_quality'") p'
    /\ evaluating_header ∈ stdout p'.
Proof.
  intros Hw Hkey.
  destruct (main_before_evaluation w text [Positional q] _ p q [] Hw eq_refl
              eq_refl eq_refl) as (out & p1 & Hg & Hmain).
  simpl in Hmain.
  assert (Hkey1 : truthy (environ p1 !! "DEEPSEEK_API_KEY") = false).
  { destruct Hg as (-> & _). exact Hkey. }
  unfold raises. rewrite Hmain.
  pose proof (evaluation_stage_prints_header w
    (store build_parser (Positional q)) q out p1) as Hh.
  destruct (evaluation_stage_no_key w (store build_parser (Positional q))
              q out p1 Hkey1) as (p' & Hr & _).
  unfold raises in Hr. simpl in Hr, Hh. rewrite Hr in Hh |- *.
  by exists p'.
Qed.

Lemma main_without_key_raises_key_error_witness :
  exists p',
    raises (main Examples.offline [Positional "rust ownership"]) Examples.fresh
      (Exn KeyError "'search_quality'") p'
    /\ evaluating_header ∈ stdout p'.
Proof.
  apply (main_without_key_raises_key_error Examples.offline Examples.two_items
           "rust ownership" Examples.fresh);
    vm_compute; reflexivity.
Defined.

(** Left at its default, [--evaluate] makes the evaluation stage run. *)
Lemma main_default_evaluates w text q p :
  DDGS w = Some text ->
  evaluating_header ∈ stdout (snd (main w [Positional q] p)).
Proof.
  intros Hw.
  destruct (main_before_evaluation w text [Positional q] _ p q [] Hw eq_refl
              eq_refl eq_refl) as (out & p1 & Hg & Hmain).
  rewrite Hmain. simpl. apply evaluation_stage_prints_header.
Qed.

(** C8, where the code breaks it: the argument of [--evaluate] is stored
    as the text that was typed, and every text but the empty one is true,
    so with [--evaluate False], as with any other non-empty value, the
    evaluation stage runs and prints its header. *)
Theorem evaluate_option_false_still_evaluates w text q s p :
  DDGS w = Some text ->
  is_empty s = false ->
  (exists args,
     parse_args build_parser [Positional q; OptEvaluate s] = inr args
     /\ evaluate args = PStr s)
  /\ evaluating_header ∈ stdout (snd (main w [Positional q; OptEvaluate s] p)).
Proof.
  intros Hw Hs. split; [eexists; split; reflexivity|].
  destruct (main_before_evaluation w text [Positional q; OptEvaluate s] _ p q []
              Hw eq_refl eq_refl eq_refl) as (out & p1 & Hg & Hmain).
  rewrite Hmain. simpl. destruct s as [|a s]; [done|]. simpl.
  apply evaluation_stage_prints_header.
Qed.

Lemma evaluate_option_false_still_evaluates_witness :
  (exists args,
     parse_args build_parser
       [Positional "rust ownership"; OptEvaluate "False"] = inr args
     /\ evaluate args = PStr "False")
  /\ evaluating_header
     ∈ stdout (snd (main Examples.offline
                      [Positional "rust ownership"; OptEvaluate "False"]
                      Examples.fresh)).
Proof.
  apply (evaluate_option_false_still_evaluates Examples.offline
           Examples.two_items "rust ownership" "False" Examples.fresh);
    reflexivity.
Defined.

End CliFacts.


(* ===================================================================== *)
(** * More on the search stage *)
(* ===================================================================== *)

Module SearchMore.
Import Search SearchFacts.

(** While the bound is not reached the loop keeps every item and sees how
    the stream ends. *)
Lemma collect_all k st acc :
  Z.of_nat (length acc + length (stream_items st)) < k ->
  collect k st acc = (acc ++ (to_result <$> stream_items st), stream_end st).
Proof.
  revert acc. induction st as [|e|it rest IH]; intros acc Hlt; simpl in *.
  - by rewrite app_nil_r.
  - by rewrite app_nil_r.
  - replace (Z.of_nat (length (acc ++ [to_result it])) >=? k) with false.
    + rewrite IH.
      * by rewrite <- app_assoc.
      * rewrite length_app. simpl. lia.
    + symmetry. rewrite Z.geb_leb. apply Z.leb_gt.
      rewrite length_app. simpl. lia.
Qed.

(** Once the bound is reached the loop stops, whatever the stream holds
    further on. *)
Lemma collect_bounded k st acc :
  Z.of_nat (length acc) < k ->
  k <= Z.of_nat (length acc + length (stream_items st)) ->
  collect k st acc
  = (acc ++ (to_result <$> take (Z.to_nat k - length acc) (stream_items st)),
     None).
Proof.
  revert acc. induction st as [|e|it rest IH]; intros acc Hlt Hge; simpl in *;
    try lia.
  destruct (Z.of_nat (length (acc ++ [to_result it])) >=? k) eqn:Hk.
  - rewrite Z.geb_leb in Hk. apply Z.leb_le in Hk.
    rewrite length_app in Hk. simpl in Hk.
    replace (Z.to_nat k - length acc)%nat with 1%nat by lia.
    simpl. by rewrite ?take_0.
  - rewrite Z.geb_leb in Hk. apply Z.leb_gt in Hk.
    rewrite length_app in Hk. simpl in Hk.
    rewrite IH.
    + rewrite length_app. simpl. rewrite <- app_assoc. simpl.
      replace (Z.to_nat k - length acc)%nat
        with (S (Z.to_nat k - (length acc + 1)))%nat by lia.
      reflexivity.
    + rewrite length_app. simpl. lia.
    + rewrite length_app. simpl. lia.
Qed.

(** X1: with a backend, a string query and [max_results] at least one, the
    search returns the results of the first [max_results] items the backend
    yields, in the backend's order (all of them when there are fewer). *)
Theorem search_returns_first_items w text q k ss tl p :
  DDGS w = Some text ->
  1 <= k ->
  exists p',
    returns (search_duckduckgo w (PStr q) k ss tl) p
      (to_result <$> take (Z.to_nat k) (stream_items (text q ss tl))) p'.
Proof.
  intros Hw Hk.
  destruct (search_duckduckgo_str w text q k ss tl p Hw) as (p' & Heq & _).
  exists p'. unfold returns. rewrite Heq. do 2 f_equal.
  destruct (Z_lt_le_dec (Z.of_nat (length (stream_items (text q ss tl)))) k)
    as [Hlt|Hge].
  - rewrite collect_all by (simpl; lia). simpl.
    by rewrite take_ge by lia.
  - rewrite collect_bounded by (simpl; lia). simpl.
    by rewrite Nat.sub_0_r.
Qed.

Lemma search_returns_first_items_witness :
  exists p',
    returns (search_duckduckgo Examples.offline (PStr "rust ownership") 1
               "moderate" "m")
      Examples.fresh
      (to_result
         <$> take (Z.to_nat 1)
               (stream_items (Examples.two_items "rust ownership" "moderate" "m")))
      p'.
Proof.
  apply (search_returns_first_items Examples.offline Examples.two_items
           "rust ownership" 1 "moderate" "m" Examples.fresh);
    [reflexivity | lia].
Defined.





(** X4: when the backend has at least [max_results] items ([max_results]
    at least one), the search stops at the bound: it returns exactly the
    first [max_results] results and prints nothing, also when the stream
    would raise further on. *)
Theorem search_stops_at_bound w text q k ss tl p :
  DDGS w = Some text ->
  1 <= k <= Z.of_nat (length (stream_items (text q ss tl))) ->
  returns (search_duckduckgo w (PStr q) k ss tl) p
    (to_result <$> take (Z.to_nat k) (stream_items (text q ss tl)))
    (mkProc (environ p) (stdout p) (requests p ++ [SearchRequest q ss tl])).
Proof.
  intros Hw Hk. unfold returns, search_duckduckgo. rewrite Hw.
  unfold bind at 1, send at 1.
  rewrite collect_bounded by (simpl; lia). simpl. by rewrite Nat.sub_0_r.
Qed.

Lemma search_stops_at_bound_witness :
  returns (search_duckduckgo MoreExamples.flaky (PStr "rust ownership") 1
             "moderate" "m")
    Examples.fresh
    (to_result
       <$> take (Z.to_nat 1)
             (stream_items (MoreExamples.one_then_error "rust ownership"
                              "moderate" "m")))
    (mkProc (environ Examples.fresh) (stdout Examples.fresh)
       (requests Examples.fresh
        ++ [SearchRequest "rust ownership" "moderate" "m"])).
Proof.
  apply (search_stops_at_bound MoreExamples.flaky MoreExamples.one_then_error
           "rust ownership" 1 "moderate" "m" Examples.fresh);
    [reflexivity | simpl; lia].
Defined.

(** X5: without the [ddgs] module a string query makes the search raise
    [RuntimeError] with the process state untouched, and the exception goes
    through [rag_answer] and through [main] to the top. *)
Theorem missing_backend_propagates w q k ss tl model p :
  DDGS w = None ->
  let e := Exn RuntimeError
             "ddgs library is not available. Install with 'pip install ddgs'" in
  raises (search_duckduckgo w (PStr q) k ss tl) p e p
  /\ raises (Rag.rag_answer w (PStr q) k model) p e p
  /\ raises (Cli.main w [Cli.Positional q]) p e p.
Proof.
  intros Hw e. unfold raises.
  assert (Hs : forall k' ss' tl' p', search_duckduckgo w (PStr q) k' ss' tl' p' = (inl e, p')).
  { intros. unfold search_duckduckgo. by rewrite Hw. }
  split; [apply Hs|]. split.
  - unfold Rag.rag_answer. by rewrite (bind_raises _ _ _ _ _ (Hs _ _ _ _)).
  - unfold Cli.main. unfold bind at 1, lift at 1. simpl.
    unfold bind at 1, ret at 1. unfold bind at 1, ret at 1.
    unfold Rag.rag_answer. rewrite (bind_raises _ _ _ e p); [reflexivity|].
    by rewrite (bind_raises _ _ _ _ _ (Hs _ _ _ _)).
Qed.

Lemma missing_backend_propagates_witness :
  let e := Exn RuntimeError
             "ddgs library is not available. Install with 'pip install ddgs'" in
  raises (search_duckduckgo MoreExamples.no_backend (PStr "rust ownership") 5
            "moderate" "m") Examples.fresh e Examples.fresh
  /\ raises (Rag.rag_answer MoreExamples.no_backend (PStr "rust ownership") 5
               "deepseek-chat") Examples.fresh e Examples.fresh
  /\ raises (Cli.main MoreExamples.no_backend [Cli.Positional "rust ownership"])
       Examples.fresh e Examples.fresh.
Proof.
  apply (missing_backend_propagates MoreExamples.no_backend "rust ownership" 5
           "moderate" "m" "deepseek-chat" Examples.fresh).
  reflexivity.
Defined.

(** X6: the description of a result is never the empty text: it is the
    item's [body] when that is not empty, else the item's [desc] when that
    is not empty, else [None]. *)
Theorem to_result_description_not_empty it :
  match description (to_result it) with
  | None => truthy (it !! "body") = false /\ truthy (it !! "desc") = false
  | Some s =>
      is_empty s = false
      /\ (it !! "body" = Some s
          \/ (truthy (it !! "body") = false /\ it !! "desc" = Some s))
  end.
Proof.
  unfold to_result, py_or. simpl.
  destruct (it !! "body") as [b|] eqn:Hb; simpl.
  - destruct b as [|a b]; simpl.
    + destruct (it !! "desc") as [d|] eqn:Hd; simpl; [|done].
      destruct d as [|a d]; simpl; [done|]. split; [done|]. by right.
    + split; [done|]. by left.
  - destruct (it !! "desc") as [d|] eqn:Hd; simpl; [|done].
    destruct d as [|a d]; simpl; [done|]. split; [done|]. by right.
Qed.

End SearchMore.


(* ===================================================================== *)
(** * More on answer generation *)
(* ===================================================================== *)

Module RagMore.
Import Search Rag SearchFacts RagFacts.

(** What [rag_answer] requests: the search, and the completion when a key
    is configured. *)
Lemma rag_answer_requests w text q k model p :
  DDGS w = Some text ->
  let results := fst (collect k (text q "moderate" "m") []) in
  let key := environ p !! "DEEPSEEK_API_KEY" in
  exists out p',
    returns (rag_answer w (PStr q) k model) p out p'
    /\ query out = PStr q
    /\ sources out = results
    /\ environ p' = environ p
    /\ requests p'
       = requests p ++ SearchRequest q "moderate" "m"
           :: (if truthy key
               then [generation_request (default EmptyString key) model q
                       (context_of results)]
               else [])
    /\ (truthy key = false -> answer out = no_key_answer (context_of results)).
Proof.
  intros Hw results key. unfold returns, rag_answer.
  unfold Search.search_duckduckgo. rewrite Hw.
  unfold bind at 1. unfold bind at 1, send at 1.
  fold results.
  assert (Hret : forall (l : list SearchResult) (o : option exn) p0,
            exists p1,
              match o with
              | Some e =>
                  (print [Text ("Error during DuckDuckGo search: " +:+ exn_str e)] ;;
                   ret l)
              | None => ret l
              end p0 = (inr l, p1)
              /\ environ p1 = environ p0 /\ requests p1 = requests p0).
  { intros l [e|] p0; eexists; (split; [reflexivity|]); by split. }
  destruct (collect k (text q "moderate" "m") []) as [l o] eqn:Hc.
  simpl in results. subst results.
  destruct (Hret l o
              (mkProc (environ p) (stdout p)
                 (requests p ++ [SearchRequest q "moderate" "m"])))
    as (p1 & Hp1 & He1 & Hr1).
  rewrite Hp1. simpl in He1, Hr1.
  unfold bind at 1, getenv at 1. rewrite He1. fold key.
  destruct (truthy key) eqn:Hk.
  - unfold try_except, bind, completion, bind, send.
    destruct (chat w _) as [e|[reply|]]; simpl;
      (do 2 eexists; split; [reflexivity|]; simpl; rewrite Hr1, <- app_assoc;
       by repeat split).
  - do 2 eexists. split; [reflexivity|]. simpl. by rewrite Hr1.
Qed.



(** X8: without a key (none, or an empty one) the answer is the fixed
    explanation followed by the context, the sources are the search
    results, and the search request is the only request made. *)
Theorem rag_answer_without_key w text q k model p :
  DDGS w = Some text ->
  truthy (environ p !! "DEEPSEEK_API_KEY") = false ->
  let results := fst (collect k (text q "moderate" "m") []) in
  exists p',
    returns (rag_answer w (PStr q) k model) p
      (mkAnswer (PStr q)
         ("No DEEPSEEK_API_KEY set or `openai` package not found. Returning aggregated search snippets:"
          +:+ nl +:+ nl +:+ context_of results)
         results)
      p'
    /\ requests p' = requests p ++ [SearchRequest q "moderate" "m"].
Proof.
  intros Hw Hkey results.
  destruct (rag_answer_requests w text q k model p Hw)
    as (out & p' & Hr & Hq & Hs & _ & Hreq & Ha).
  rewrite Hkey in Hreq. exists p'. split; [|exact Hreq].
  specialize (Ha Hkey). destruct out as [oq oa os]. simpl in *.
  by subst.
Qed.

Lemma rag_answer_without_key_witness :
  exists p',
    returns (rag_answer Examples.offline (PStr "rust ownership") 2 "deepseek-chat")
      Examples.fresh
      (mkAnswer (PStr "rust ownership")
         ("No DEEPSEEK_API_KEY set or `openai` package not found. Returning aggregated search snippets:"
          +:+ nl +:+ nl
          +:+ context_of
                (fst (collect 2 (Examples.two_items "rust ownership" "moderate" "m")
                        [])))
         (fst (collect 2 (Examples.two_items "rust ownership" "moderate" "m") [])))
      p'
    /\ requests p'
       = requests Examples.fresh ++ [SearchRequest "rust ownership" "moderate" "m"].
Proof.
  apply (rag_answer_without_key Examples.offline Examples.two_items
           "rust ownership" 2 "deepseek-chat" Examples.fresh);
    [reflexivity | vm_compute; reflexivity].
Defined.

(** X9: with a key configured and a completion that answers [reply], the
    answer is [reply] with the white space at both ends removed, and the
    sources are the search results. *)
Theorem rag_answer_success w text q k model p key reply :
  DDGS w = Some text ->
  environ p !! "DEEPSEEK_API_KEY" = Some key ->
  is_empty key = false ->
  let results := fst (collect k (text q "moderate" "m") []) in
  chat w (generation_request key model q (context_of results))
  = ChatContent (Some reply) ->
  exists p',
    returns (rag_answer w (PStr q) k model) p
      (mkAnswer (PStr q) (strip reply) results) p'.
Proof.
  intros Hw Hkey Hne results Hchat.
  destruct (search_duckduckgo_str w text q k "moderate" "m" p Hw)
    as (p1 & Hs & Hg).
  unfold returns, rag_answer. rewrite (bind_returns _ _ _ _ _ Hs).
  unfold bind at 1, getenv at 1.
  destruct Hg as (He & _). rewrite He, Hkey. simpl.
  destruct key as [|a key]; [done|]. simpl.
  unfold try_except, bind, completion, bind, send. fold results.
  rewrite Hchat. by eexists.
Qed.

Lemma rag_answer_success_witness :
  exists p',
    returns
      (rag_answer (Examples.replying "  Ownership [1] " (inl Examples.decode_error))
         (PStr "rust ownership") 2 "deepseek-chat")
      Examples.with_key
      (mkAnswer (PStr "rust ownership") (strip "  Ownership [1] ")
         (fst (collect 2 (Examples.two_items "rust ownership" "moderate" "m") [])))
      p'.
Proof.
  apply (rag_answer_success
           (Examples.replying "  Ownership [1] " (inl Examples.decode_error))
           Examples.two_items "rust ownership" 2 "deepseek-chat"
           Examples.with_key "sk-test" "  Ownership [1] ");
    [reflexivity | vm_compute; reflexivity | reflexivity | reflexivity].
Defined.

Lemma context_block_not_empty i r : context_block i r <> EmptyString.
Proof. unfold context_block. discriminate. Qed.

(** X10: the context is the empty text exactly when there is no search
    result. *)
Theorem context_of_empty_iff results :
  context_of results = EmptyString <-> results = [].
Proof.
  split; [|by intros ->].
  destruct results as [|r rest]; [done|].
  unfold context_of, docs_of. simpl.
  destruct (imap _ rest) as [|d ds]; intros H.
  - by apply context_block_not_empty in H.
  - unfold join in H. simpl in H. unfold context_block in H. discriminate H.
Qed.




End RagMore.


(* ===================================================================== *)
(** * More on evaluation *)
(* ===================================================================== *)

Module EvaluatorMore.
Import Evaluator EvaluatorFacts.

(** X12: the weighted sum of lines 98 to 101 is computed, and the parsed
    value returned with [overall_score], exactly when [json.loads] gave an
    object whose four scores, a missing one counting as 5, are numbers
    (floats, bools, or ints within the range of floats); every other parsed
    value raises inside the [try] block. *)
Theorem score_succeeds_iff v :
  (exists report, score v = inr report)
  <-> exists d a r s c,
        v = JDict d
        /\ score_number d "accuracy_score" = Some a
        /\ score_number d "relevance_score" = Some r
        /\ score_number d "search_quality" = Some s
        /\ score_number d "citation_quality" = Some c.
Proof.
  split.
  - intros [report H]. destruct v as [| b | z | g | t | l | d]; try discriminate.
    simpl in H. destruct (weighted d) as [e|x] eqn:Hw; [discriminate|].
    destruct (weighted_inr_numbers d x Hw) as (a & r & s & c & Hn).
    by exists d, a, r, s, c.
  - intros (d & a & r & s & c & -> & Ha & Hr & Hs & Hc).
    eexists. apply (score_numbers d a r s c Ha Hr Hs Hc).
Qed.

(** X13: a reply that parses as JSON but not as an object (a list, a
    text, a number, [null]) gives the neutral report, whose feedback names
    the missing [get] of that type and whose [overall_score] is 5.0. *)
Theorem evaluate_response_non_object w query answer sources model p key text v :
  environ p !! "DEEPSEEK_API_KEY" = Some key ->
  is_empty key = false ->
  chat w (evaluation_request key model (eval_prompt query answer sources))
  = ChatContent (Some text) ->
  json_loads w (strip text) = inr v ->
  is_dict v = false ->
  exists report p',
    returns (evaluate_response w query answer sources model) p report p'
    /\ report !! "feedback"
       = Some (JStr ("Evaluation failed: '" +:+ type_name v
                     +:+ "' object has no attribute 'get'. Using neutral scores."))
    /\ report !! "overall_score" = Some (JFloat (tenths 50)).
Proof.
  intros Hkey Hne Hchat Hjson Hv.
  set (e := Exn AttributeError
              ("'" +:+ type_name v +:+ "' object has no attribute 'get'")).
  assert (Hs : score v = inl e) by (by destruct v).
  destruct (evaluate_response_neutral w query answer sources model p key e
              Hkey Hne (scoring_fails _ _ text v e Hchat Hjson Hs)) as [p' Hr].
  exists (neutral_report e), p'. split; [exact Hr|].
  assert (Hfive : tenths 50 = ratio 5 1) by (vm_compute; reflexivity).
  rewrite Hfive. split; unfold neutral_report; [|lookup_literal].
  repeat (rewrite lookup_insert_ne by discriminate).
  rewrite lookup_insert_eq. do 2 f_equal. subst e. simpl.
  by rewrite !RagFacts.append_assoc.
Qed.

Lemma evaluate_response_non_object_witness :
  exists report p',
    returns
      (evaluate_response (Examples.replying "[]" (inr (JList [])))
         "rust ownership" "Ownership [1]" [] "deepseek-chat")
      Examples.with_key report p'
    /\ report !! "feedback"
       = Some (JStr ("Evaluation failed: '" +:+ type_name (JList [])
                     +:+ "' object has no attribute 'get'. Using neutral scores."))
    /\ report !! "overall_score" = Some (JFloat (tenths 50)).
Proof.
  apply (evaluate_response_non_object
           (Examples.replying "[]" (inr (JList [])))
           "rust ownership" "Ownership [1]" [] "deepseek-chat"
           Examples.with_key "sk-test" "[]" (JList []));
    [vm_compute; reflexivity | reflexivity | vm_compute; reflexivity
    | vm_compute; reflexivity | reflexivity].
Defined.

(** X14: a reply that parses as an object with none of the four scores is
    returned as it is with [overall_score] 5.0 added: every missing score
    counts as 5 in the sum and stays missing in the report. *)
Theorem evaluate_response_missing_scores w query answer sources model p key text d :
  environ p !! "DEEPSEEK_API_KEY" = Some key ->
  is_empty key = false ->
  chat w (evaluation_request key model (eval_prompt query answer sources))
  = ChatContent (Some text) ->
  json_loads w (strip text) = inr (JDict d) ->
  d !! "accuracy_score" = None ->
  d !! "relevance_score" = None ->
  d !! "search_quality" = None ->
  d !! "citation_quality" = None ->
  exists p',
    returns (evaluate_response w query answer sources model) p
      (<["overall_score" := JFloat (tenths 50)]> d) p'.
Proof.
  intros Hkey Hne Hchat Hjson Ha Hr Hs Hc.
  assert (Hfive : round1 (weighted_average (of_int 5) (of_int 5) (of_int 5)
                            (of_int 5)) = tenths 50)
    by (vm_compute; reflexivity).
  rewrite <- Hfive.
  apply (evaluate_response_scored w query answer sources model p key text
           (JDict d) _ Hkey Hne Hchat Hjson).
  apply score_numbers; unfold score_number;
    rewrite ?Ha, ?Hr, ?Hs, ?Hc; reflexivity.
Qed.

Lemma fmul_nan_r x : fmul x S754_nan = S754_nan.
Proof. by destruct x. Qed.

Lemma fadd_nan_l x : fadd S754_nan x = S754_nan.
Proof. by destruct x. Qed.

Lemma fadd_nan_r x : fadd x S754_nan = S754_nan.
Proof. by destruct x. Qed.

Lemma evaluate_response_missing_scores_witness :
  exists p',
    returns
      (evaluate_response (Examples.replying "{}" (inr (JDict ∅)))
         "rust ownership" "Ownership [1]" [] "deepseek-chat")
      Examples.with_key (<["overall_score" := JFloat (tenths 50)]> ∅) p'.
Proof.
  apply (evaluate_response_missing_scores
           (Examples.replying "{}" (inr (JDict ∅)))
           "rust ownership" "Ownership [1]" [] "deepseek-chat"
           Examples.with_key "sk-test" "{}" ∅);
    [vm_compute; reflexivity | reflexivity | vm_compute; reflexivity
    | vm_compute; reflexivity | reflexivity | reflexivity | reflexivity
    | reflexivity].
Defined.

Lemma weighted_average_nan a r s c :
  is_nan a || is_nan r || is_nan s || is_nan c = true ->
  round1 (weighted_average a r s c) = S754_nan.
Proof.
  unfold weighted_average. intros H.
  destruct (is_nan a) eqn:Ha.
  { destruct a; try discriminate.
    by rewrite fmul_nan_r, !fadd_nan_l. }
  destruct (is_nan r) eqn:Hr.
  { destruct r; try discriminate.
    by rewrite fmul_nan_r, fadd_nan_r, !fadd_nan_l. }
  destruct (is_nan s) eqn:Hs.
  { destruct s; try discriminate.
    by rewrite (fmul_nan_r f0_3), fadd_nan_r, !fadd_nan_l. }
  destruct c; try discriminate.
  by rewrite fmul_nan_r, fadd_nan_r.
Qed.

(** X15: scores are not validated: when the reply parses as an object
    whose four scores are numbers and one of them is NaN, the report is
    returned with NaN as its [overall_score]. *)
Theorem nan_score_gives_nan_overall
    w query answer sources model p key text d a r s c :
  environ p !! "DEEPSEEK_API_KEY" = Some key ->
  is_empty key = false ->
  chat w (evaluation_request key model (eval_prompt query answer sources))
  = ChatContent (Some text) ->
  json_loads w (strip text) = inr (JDict d) ->
  score_number d "accuracy_score" = Some a ->
  score_number d "relevance_score" = Some r ->
  score_number d "search_quality" = Some s ->
  score_number d "citation_quality" = Some c ->
  is_nan a || is_nan r || is_nan s || is_nan c = true ->
  exists p',
    returns (evaluate_response w query answer sources model) p
      (<["overall_score" := JFloat S754_nan]> d) p'.
Proof.
  intros Hkey Hne Hchat Hjson Ha Hr Hs Hc Hnan.
  rewrite <- (weighted_average_nan a r s c Hnan).
  apply (evaluate_response_scored w query answer sources model p key text
           (JDict d) _ Hkey Hne Hchat Hjson).
  by apply score_numbers.
Qed.

Lemma nan_score_gives_nan_overall_witness :
  exists p',
    returns
      (evaluate_response
         (Examples.replying "{}" (inr (JDict MoreExamples.nan_scores)))
         "rust ownership" "Ownership [1]" [] "deepseek-chat")
      Examples.with_key
      (<["overall_score" := JFloat S754_nan]> MoreExamples.nan_scores) p'.
Proof.
  apply (nan_score_gives_nan_overall
           (Examples.replying "{}" (inr (JDict MoreExamples.nan_scores)))
           "rust ownership" "Ownership [1]" [] "deepseek-chat"
           Examples.with_key "sk-test" "{}" MoreExamples.nan_scores
           S754_nan (of_int 5) (of_int 5) (of_int 5));
    [vm_compute; reflexivity | reflexivity | vm_compute; reflexivity
    | vm_compute; reflexivity | vm_compute; reflexivity
    | vm_compute; reflexivity | vm_compute; reflexivity
    | vm_compute; reflexivity | reflexivity].
Defined.



(** X17: on the heuristic path [overall_score] is one of 4.3, 5.0, 5.7, 6.3
    and 7.0. *)
Theorem heuristic_overall_values w query answer sources model p :
  truthy (environ p !! "DEEPSEEK_API_KEY") = false ->
  exists report n,
    returns (evaluate_response w query answer sources model) p report p
    /\ report !! "overall_score" = Some (JFloat (tenths n))
    /\ n ∈ [43; 50; 57; 63; 70].
Proof.
  intros Hkey.
  destruct (evaluate_response_heuristic w query answer sources model p Hkey)
    as (report & Hr & _ & _ & _ & Ho & _).
  exists report.
  destruct (0 <? length sources)%nat,
    (20 <? split_len answer)%nat,
    (contains lbracket answer && contains rbracket answer);
    match type of Ho with
    | _ = Some (JFloat (round1 (ratio ?m 3))) =>
        exists (half_even (10 * m) 3)
    end;
    (split; [exact Hr|]); (split; [rewrite Ho; vm_compute; reflexivity|]);
    match goal with
    | |- ?n ∈ _ => let v := eval vm_compute in n in change n with v
    end;
    repeat first [apply list_elem_of_here | apply list_elem_of_further].
Qed.

Lemma heuristic_overall_values_witness :
  exists report n,
    returns
      (evaluate_response Examples.offline "rust ownership" "Ownership [1]" []
         "deepseek-chat")
      Examples.fresh report Examples.fresh
    /\ report !! "overall_score" = Some (JFloat (tenths n))
    /\ n ∈ [43; 50; 57; 63; 70].
Proof.
  apply (heuristic_overall_values Examples.offline "rust ownership"
           "Ownership [1]" [] "deepseek-chat" Examples.fresh).
  vm_compute. reflexivity.
Defined.

(** X18: on the heuristic path the feedback is the fixed notice, the
    strengths text tells an answer of more than ten words from a short one,
    and the opportunity text is always the advice to set a key: the other
    text of line 138 is never returned by [evaluate_response]. *)
Theorem heuristic_texts w query answer sources model p :
  truthy (environ p !! "DEEPSEEK_API_KEY") = false ->
  exists report,
    returns (evaluate_response w query answer sources model) p report p
    /\ report !! "feedback"
       = Some (JStr "Heuristic evaluation (no LLM available). Actual quality may vary.")
    /\ report !! "strengths"
       = Some (JStr (if (10 <? split_len answer)%nat
                     then "Response generated successfully"
                     else "Short response"))
    /\ report !! "opportunity" = Some (JStr "Use OpenAI API key for evaluation").
Proof.
  intros Hkey. unfold returns.
  rewrite evaluate_response_no_key by done.
  unfold _fallback_evaluation, bind, getenv, ret. rewrite Hkey.
  eexists. split; [reflexivity|]. repeat split; lookup_literal.
Qed.

Lemma heuristic_texts_witness :
  exists report,
    returns
      (evaluate_response Examples.offline "rust ownership" "Ownership [1]" []
         "deepseek-chat")
      Examples.fresh report Examples.fresh
    /\ report !! "feedback"
       = Some (JStr "Heuristic evaluation (no LLM available). Actual quality may vary.")
    /\ report !! "strengths"
       = Some (JStr (if (10 <? split_len "Ownership [1]")%nat
                     then "Response generated successfully"
                     else "Short response"))
    /\ report !! "opportunity" = Some (JStr "Use OpenAI API key for evaluation").
Proof.
  apply (heuristic_texts Examples.offline "rust ownership" "Ownership [1]" []
           "deepseek-chat" Examples.fresh).
  vm_compute. reflexivity.
Defined.

End EvaluatorMore.


(* ===================================================================== *)
(** * More on the command line *)
(* ===================================================================== *)

Module CliMore.
Import Search Evaluator Cli SearchFacts RagFacts EvaluatorFacts CliFacts.

Lemma store_all_query ns argv :
  query (store_all ns argv) = query ns ++ positional_words argv.
Proof.
  unfold store_all. revert ns.
  induction argv as [|a argv IH]; intros ns; simpl.
  - by rewrite app_nil_r.
  - rewrite IH. destruct a; simpl; try reflexivity.
    by rewrite <- app_assoc.
Qed.

(** Options alone are all stored, in whatever phase they come. *)
Lemma parse_after_query_options ns argv :
  positional_words argv = [] ->
  parse_after_query ns argv = (store_all ns argv, []).
Proof.
  revert ns. induction argv as [|a argv IH]; intros ns H; [done|].
  destruct a; simpl in *; try discriminate; by rewrite IH.
Qed.

Lemma parse_before_query_options ns argv :
  positional_words argv = [] ->
  parse_before_query ns argv = (store_all ns argv, []).
Proof.
  revert ns. induction argv as [|a argv IH]; intros ns H; [done|].
  destruct a; simpl in *; try discriminate; by rewrite IH.
Qed.

Lemma parse_in_query_options ns argv :
  positional_words argv = [] ->
  parse_in_query ns argv = (store_all ns argv, []).
Proof.
  intros H. destruct argv as [|a argv]; [done|].
  destruct a; simpl in *; try discriminate; by apply parse_after_query_options.
Qed.

(** A line with one run of words and nothing but options around it is
    stored whole. *)
Lemma parse_in_query_run ns words after :
  positional_words after = [] ->
  parse_in_query ns ((Positional <$> words) ++ after)
  = (store_all ns ((Positional <$> words) ++ after), []).
Proof.
  intros H. revert ns. induction words as [|x words IH]; intros ns; simpl.
  - by apply parse_in_query_options.
  - apply IH.
Qed.

Lemma parse_before_query_run ns before words after :
  positional_words before = [] ->
  positional_words after = [] ->
  parse_before_query ns (before ++ (Positional <$> words) ++ after)
  = (store_all ns (before ++ (Positional <$> words) ++ after), []).
Proof.
  intros Hb Ha. revert ns. induction before as [|a before IH]; intros ns.
  - destruct words as [|x words]; simpl.
    + by apply parse_before_query_options.
    + by apply parse_in_query_run.
  - destruct a; simpl in *; try discriminate; by apply IH.
Qed.

(** Nothing left over means one run of words at most. *)
Lemma parse_after_query_accepts ns argv ns' :
  parse_after_query ns argv = (ns', []) -> positional_words argv = [].
Proof.
  revert ns. induction argv as [|a argv IH]; intros ns H; [done|].
  destruct a; simpl in *; try (by eapply IH). congruence.
Qed.

Lemma parse_in_query_accepts ns argv ns' :
  parse_in_query ns argv = (ns', []) ->
  exists words after,
    argv = (Positional <$> words) ++ after /\ positional_words after = [].
Proof.
  revert ns. induction argv as [|a argv IH]; intros ns H.
  - by exists [], [].
  - destruct a as [x|n|s|s|s|s]; simpl in H;
      [ destruct (IH _ H) as (words & after & -> & Ha);
        by exists (x :: words), after
      | apply parse_after_query_accepts in H; by eexists [], (_ :: argv) .. ].
Qed.

Lemma parse_before_query_accepts ns argv ns' :
  parse_before_query ns argv = (ns', []) ->
  exists before words after,
    argv = before ++ (Positional <$> words) ++ after
    /\ positional_words before = []
    /\ positional_words after = [].
Proof.
  revert ns. induction argv as [|a argv IH]; intros ns H.
  - by exists [], [], [].
  - destruct a as [x|n|s|s|s|s]; simpl in H;
      [ destruct (parse_in_query_accepts _ _ _ H) as (words & after & -> & Ha);
        by exists [], (x :: words), after
      | destruct (IH _ H) as (before & words & after & -> & Hb & Ha);
        by eexists (_ :: before), words, after .. ].
Qed.

(** What [parse_args] does with every command line. *)
Lemma parse_args_cases parser argv :
  let one_run :=
    exists before words after,
      argv = before ++ (Positional <$> words) ++ after
      /\ positional_words before = []
      /\ positional_words after = [] in
  (one_run /\ parse_args parser argv = inr (store_all parser argv))
  \/ (~ one_run /\ parse_args parser argv = inl (Exn SystemExit "2")).
Proof.
  intros one_run. unfold parse_args, parse_known_args.
  destruct (parse_before_query parser argv) as [ns extras] eqn:H.
  destruct extras as [|x extras].
  - left.
    destruct (parse_before_query_accepts _ _ _ H)
      as (before & words & after & -> & Hb & Ha).
    rewrite (parse_before_query_run parser before words after Hb Ha) in H.
    injection H as <-. split; [|done]. by exists before, words, after.
  - right. split; [|done].
    intros (before & words & after & -> & Hb & Ha).
    rewrite (parse_before_query_run parser before words after Hb Ha) in H.
    discriminate H.
Qed.

Lemma parse_args_stores parser argv args :
  parse_args parser argv = inr args -> args = store_all parser argv.
Proof.
  intros H. destruct (parse_args_cases parser argv) as [[_ H'] | [_ H']];
    rewrite H' in H; congruence.
Qed.

Lemma parse_args_options argv :
  positional_words argv = [] ->
  parse_args build_parser argv = inr (store_all build_parser argv).
Proof.
  intros H. unfold parse_args, parse_known_args.
  by rewrite parse_before_query_options.
Qed.

(** X19: [parse_args] accepts a command line exactly when its positional
    words stand together, as one run with nothing but options before and
    after it; the namespace then holds every argument stored in the order
    typed, and its query words are the positional words of the line.  On
    every other line, where a positional word comes after an option that
    follows another word, it exits with status 2. *)
Theorem parse_args_query argv :
  let one_run :=
    exists before words after,
      argv = before ++ (Positional <$> words) ++ after
      /\ positional_words before = []
      /\ positional_words after = [] in
  (one_run
   /\ exists args,
        parse_args build_parser argv = inr args
        /\ args = store_all build_parser argv
        /\ query args = positional_words argv)
  \/ (~ one_run
      /\ parse_args build_parser argv = inl (Exn SystemExit "2")).
Proof.
  intros one_run.
  destruct (parse_args_cases build_parser argv) as [[Hrun H] | [Hrun H]].
  - left. split; [exact Hrun|]. eexists. split; [exact H|]. split; [done|].
    by rewrite store_all_query.
  - right. by split.
Qed.

(** A word after an option after a word: [argparse] exits, and [main]
    with it, before anything is printed or requested. *)
Example main_rejects_split_query w p :
  parse_args build_parser
    [Positional "rust"; OptMaxResults 3; Positional "ownership"]
  = inl (Exn SystemExit "2")
  /\ raises
       (main w [Positional "rust"; OptMaxResults 3; Positional "ownership"])
       p (Exn SystemExit "2") p.
Proof. split; reflexivity. Qed.

(** X20: a command line of positional words only leaves every option at
    the default [build_parser] declares: five results, the model
    [deepseek-chat] for the answer and for the evaluation, no key, and
    evaluation on. *)
Theorem parse_args_defaults words :
  parse_args build_parser (Positional <$> words)
  = inr (mkNamespace words 5 "deepseek-chat" None (PBool true)
           "deepseek-chat").
Proof.
  unfold parse_args, parse_known_args.
  pose proof (parse_before_query_run build_parser [] words [] eq_refl eq_refl)
    as Hrun.
  simpl in Hrun. rewrite app_nil_r in Hrun. rewrite Hrun. clear Hrun.
  unfold store_all.
  assert (H : forall ns,
            fold_left store (Positional <$> words) ns
            = mkNamespace (query ns ++ words) (max_results ns) (model ns)
                (deepseek_key ns) (evaluate ns) (eval_model ns)).
  { induction words as [|x words IH]; intros ns; simpl.
    - rewrite app_nil_r. by destruct ns.
    - rewrite IH. simpl. by rewrite <- app_assoc. }
  by rewrite H.
Qed.

Lemma print_sources_run i sources p :
  returns (print_sources i sources) p tt
    (mkProc (environ p)
       (stdout p ++ imap (fun j s => source_row (i + j) s) sources)
       (requests p)).
Proof.
  unfold returns. revert i p. induction sources as [|s l IH]; intros i p; simpl.
  - rewrite app_nil_r. by destruct p.
  - unfold bind at 1, print at 1. rewrite IH. simpl.
    rewrite <- app_assoc. do 3 f_equal. simpl. f_equal.
    + unfold source_row. by rewrite Nat.add_0_r.
    + apply imap_ext. intros j x _. simpl. by rewrite Nat.add_succ_r.
Qed.

(** X21: the loop over the sources never raises and prints exactly one
    line per source, in order, numbered from its starting number; a missing
    title or url is printed as [None]. *)
Theorem print_sources_lines i sources p :
  returns (print_sources i sources) p tt
    (mkProc (environ p)
       (stdout p ++ imap (fun j s => source_row (i + j) s) sources)
       (requests p)).
Proof. apply print_sources_run. Qed.

(** [main] once the command line is read. *)
Lemma main_parsed w argv args p :
  parse_args build_parser argv = inr args ->
  main w argv p
  = ((match deepseek_key args with
      | Some k => if is_empty k then ret tt else setenv "DEEPSEEK_API_KEY" k
      | None => ret tt
      end) ;;
     let* query :=
       match query args with
       | [] => input w "Enter your query: "
       | words => ret (join " " words)
       end in
     let* out :=
       Rag.rag_answer w (PStr query) (max_results args) (model args) in
     print [Text (nl +:+ "=== Generated Answer ===" +:+ nl)] ;;
     print [Text (Rag.answer out)] ;;
     print [Text (nl +:+ "=== Sources ===" +:+ nl)] ;;
     print_sources 1 (Rag.sources out) ;;
     if truth (evaluate args) then evaluation_stage w args query out
     else ret tt) p.
Proof. intros H. unfold main. rewrite H. reflexivity. Qed.

(** X22: with no positional word and nothing to read on standard input,
    [main] prints the prompt and raises [EOFError] before any request is
    made. *)
Theorem main_end_of_input w argv args p :
  positional_words argv = [] ->
  parse_args build_parser argv = inr args ->
  deepseek_key args = None ->
  stdin w = None ->
  raises (main w argv) p (Exn EOFError "EOF when reading a line")
    (mkProc (environ p) (stdout p ++ [[Text "Enter your query: "]])
       (requests p)).
Proof.
  intros Hq Hargs Hkey Hin. unfold raises.
  assert (Hwords : query args = []).
  { by rewrite (parse_args_stores _ _ _ Hargs), store_all_query, Hq. }
  rewrite (main_parsed w argv args p Hargs). rewrite Hwords, Hkey.
  unfold bind at 1, ret at 1. unfold bind at 1.
  unfold input, bind at 1, print at 1. by rewrite Hin.
Qed.

Lemma main_end_of_input_witness :
  raises (main Examples.offline [OptModel "deepseek-reasoner"]) Examples.fresh
    (Exn EOFError "EOF when reading a line")
    (mkProc (environ Examples.fresh)
       (stdout Examples.fresh ++ [[Text "Enter your query: "]])
       (requests Examples.fresh)).
Proof.
  apply (main_end_of_input Examples.offline [OptModel "deepseek-reasoner"]
           (mkNamespace [] 5 "deepseek-reasoner" None (PBool true)
              "deepseek-chat")
           Examples.fresh);
    reflexivity.
Defined.

Lemma print_field_returns label d k v p :
  d !! k = Some v -> print_field label d k p = print [Text label; Value v] p.
Proof. intros Hk. unfold print_field, bind, getitem. by rewrite Hk. Qed.

Lemma print_field_raises label d k p :
  d !! k = None ->
  print_field label d k p = (inl (Exn KeyError ("'" +:+ k +:+ "'")), p).
Proof. intros Hk. unfold print_field, bind, getitem. by rewrite Hk. Qed.

Lemma print_mk l e o r :
  print l (mkProc e o r) = (inr tt, mkProc e (o ++ [l]) r).
Proof. reflexivity. Qed.

(** Runs the lines of the report whose keys the context tells about. *)
Ltac report_lines :=
  repeat (unfold bind at 1;
          first [ erewrite print_score_returns by eassumption
                | erewrite print_score_raises by eassumption
                | erewrite print_field_returns by eassumption
                | erewrite print_field_raises by eassumption ];
          try first [rewrite print_mk | unfold print at 1]; cbv beta iota);
  try first [ erewrite print_field_returns by eassumption;
              first [rewrite print_mk | unfold print]
            | erewrite print_field_raises by eassumption ].

Lemma report_rows_cons d k label ten rest :
  report_rows d ((k, label, ten) :: rest)
  = match d !! k with
    | Some v => report_row label ten v :: report_rows d rest
    | None => []
    end.
Proof. reflexivity. Qed.

(** Computes the rows of a report whose keys the context tells about. *)
Ltac rows_of report :=
  unfold report_table;
  repeat (rewrite report_rows_cons;
          match goal with H : report !! _ = _ |- _ => rewrite H end);
  unfold report_rows, report_row.

(** The evaluation neither prints nor touches the environment. *)
Lemma evaluate_response_state w query answer sources model p report p1 :
  returns (evaluate_response w query answer sources model) p report p1 ->
  environ p1 = environ p /\ stdout p1 = stdout p.
Proof.
  unfold returns. intros H.
  destruct (truthy (environ p !! "DEEPSEEK_API_KEY")) eqn:Hkey.
  - destruct (environ p !! "DEEPSEEK_API_KEY") as [key|] eqn:He; [|done].
    assert (Hne : is_empty key = false) by (by destruct key).
    rewrite (evaluate_response_model_path w query answer sources model p key
               He Hne) in H.
    destruct (chat w _) as [e|[text|]];
      [| destruct (json_loads w (strip text)) as [e|v];
         [|destruct (score v)] |];
      injection H as _ <-; done.
  - rewrite evaluate_response_no_key in H by done.
    unfold _fallback_evaluation, bind, getenv, ret in H.
    injection H as _ <-. done.
Qed.

(** The evaluation stage from the report on. *)
Lemma evaluation_stage_run w args query out p report p1 :
  returns (evaluate_response w query (Rag.answer out) (Rag.sources out)
             (eval_model args))
    (mkProc (environ p) (stdout p ++ [evaluating_header]) (requests p))
    report p1 ->
  let p' := mkProc (environ p1)
              (stdout p1 ++ report_rows report report_table) (requests p1) in
  report_keys !! length (report_rows report report_table)
  = first_missing report report_keys
  /\ match first_missing report report_keys with
     | Some k =>
         raises (evaluation_stage w args query out) p
           (Exn KeyError ("'" +:+ k +:+ "'")) p'
     | None => returns (evaluation_stage w args query out) p tt p'
     end.
Proof.
  intros Hr p'. subst p'.
  assert (Hrun : forall r,
            (print_score "Accuracy Score:      " report "accuracy_score" ;;
             print_score "Relevance Score:     " report "relevance_score" ;;
             print_score "Search Quality:     " report "search_quality" ;;
             print_score "Citation Quality:    " report "citation_quality" ;;
             print_score "Overall Score:       " report "overall_score" ;;
             print_field (nl +:+ "Feedback: ") report "feedback" ;;
             print_field "Strengths: " report "strengths" ;;
             print_field "Opportunity: " report "opportunity") p1 = r ->
            evaluation_stage w args query out p = r).
  { intros r <-. unfold evaluation_stage. unfold bind at 1, print at 1.
    by rewrite (bind_returns _ _ _ _ _ Hr). }
  clear Hr. destruct p1 as [e1 o1 r1]. unfold raises, returns.
  destruct (first_missing report report_keys) as [k|] eqn:Hfm;
    unfold first_missing, report_keys in Hfm;
    repeat match type of Hfm with
           | context [match ?d !! ?key with _ => _ end] =>
               destruct (d !! key) eqn:?
           end;
    try discriminate Hfm; try (injection Hfm as <-);
    rows_of report;
    (split; [reflexivity|]);
    apply Hrun; report_lines; simpl;
    rewrite ?app_nil_r, <- ?app_assoc; reflexivity.
Qed.

(** X23: the evaluation stage prints its header, asks for the report and
    prints the report line by line in the order of the keys, up to the
    first key the report does not have: the printed rows are those of the
    keys before it, and [KeyError] is raised for that key.  When the report
    has the eight keys the eight rows are printed and the stage returns.
    Nothing else is printed, and the environment is as it was. *)
Theorem evaluation_stage_first_missing_key w args query out p :
  exists report p1,
    returns (evaluate_response w query (Rag.answer out) (Rag.sources out)
               (eval_model args))
      (mkProc (environ p) (stdout p ++ [evaluating_header]) (requests p))
      report p1
    /\ let rows := report_rows report report_table in
       let p' := mkProc (environ p)
                   (stdout p ++ evaluating_header :: rows) (requests p1) in
       report_keys !! length rows = first_missing report report_keys
       /\ match first_missing report report_keys with
          | Some k =>
              raises (evaluation_stage w args query out) p
                (Exn KeyError ("'" +:+ k +:+ "'")) p'
          | None => returns (evaluation_stage w args query out) p tt p'
          end.
Proof.
  destruct (evaluate_response_returns w query (Rag.answer out) (Rag.sources out)
              (eval_model args)
              (mkProc (environ p) (stdout p ++ [evaluating_header]) (requests p)))
    as (report & p1 & Hr & _).
  destruct (evaluate_response_state _ _ _ _ _ _ _ _ Hr) as [He Ho].
  destruct (evaluation_stage_run w args query out p report p1 Hr)
    as (Hlen & Hstage).
  simpl in He, Ho. rewrite He, Ho, <- app_assoc in Hstage.
  by exists report, p1.
Qed.

(** The state [main] is in when the sources are printed. *)
Lemma main_body w text args q p0 :
  DDGS w = Some text ->
  exists out p1,
    returns (Rag.rag_answer w (PStr q) (max_results args) (model args)) p0 out p1
    /\ Rag.sources out
       = fst (collect (max_results args) (text q "moderate" "m") [])
    /\ environ p1 = environ p0
    /\ (exists more, requests p1
                     = requests p0 ++ SearchRequest q "moderate" "m" :: more)
    /\ (let* out := Rag.rag_answer w (PStr q) (max_results args) (model args) in
        print [Text (nl +:+ "=== Generated Answer ===" +:+ nl)] ;;
        print [Text (Rag.answer out)] ;;
        print [Text (nl +:+ "=== Sources ===" +:+ nl)] ;;
        print_sources 1 (Rag.sources out) ;;
        if truth (evaluate args) then evaluation_stage w args q out
        else ret tt) p0
       = (if truth (evaluate args) then evaluation_stage w args q out
          else ret tt)
           (mkProc (environ p1)
              (stdout p1
               ++ [[Text (nl +:+ "=== Generated Answer ===" +:+ nl)];
                   [Text (Rag.answer out)];
                   [Text (nl +:+ "=== Sources ===" +:+ nl)]]
               ++ imap (fun j s => source_row (1 + j) s) (Rag.sources out))
              (requests p1)).
Proof.
  intros Hw.
  destruct (RagMore.rag_answer_requests w text q (max_results args) (model args)
              p0 Hw) as (out & p1 & Hr & _ & Hs & He & Hreq & _).
  exists out, p1. split; [exact Hr|]. split; [exact Hs|]. split; [exact He|].
  split; [by eexists|].
  rewrite (bind_returns _ _ _ _ _ Hr).
  unfold bind at 1, print at 1. unfold bind at 1, print at 1.
  unfold bind at 1, print at 1.
  rewrite (bind_returns _ _ _ _ _ (print_sources_run 1 _ _)). simpl.
  by rewrite <- !app_assoc.
Qed.

Lemma monotone_evaluation_stage w args q out :
  monotone (evaluation_stage w args q out).
Proof.
  unfold evaluation_stage.
  repeat first [ apply monotone_print | apply monotone_evaluate_response
               | apply monotone_print_score | apply monotone_print_field
               | apply monotone_bind; [|intros ?] ].
Qed.

Lemma monotone_after_sources w args q out :
  monotone (if truth (evaluate args) then evaluation_stage w args q out
            else ret tt).
Proof.
  destruct (truth (evaluate args));
    [apply monotone_evaluation_stage | apply monotone_ret].
Qed.

Lemma main_with_words w argv args p q1 qs :
  parse_args build_parser argv = inr args ->
  query args = q1 :: qs ->
  let q := join " " (q1 :: qs) in
  main w argv p
  = (let* out := Rag.rag_answer w (PStr q) (max_results args) (model args) in
     print [Text (nl +:+ "=== Generated Answer ===" +:+ nl)] ;;
     print [Text (Rag.answer out)] ;;
     print [Text (nl +:+ "=== Sources ===" +:+ nl)] ;;
     print_sources 1 (Rag.sources out) ;;
     if truth (evaluate args) then evaluation_stage w args q out else ret tt)
      (match deepseek_key args with
       | Some k =>
           if is_empty k then p
           else mkProc (<["DEEPSEEK_API_KEY" := k]> (environ p)) (stdout p)
                  (requests p)
       | None => p
       end).
Proof.
  intros Hargs Hq q. rewrite (main_parsed w argv args p Hargs).
  rewrite Hq. fold q.
  unfold bind at 1.
  destruct (deepseek_key args) as [k|]; [destruct (is_empty k)|];
    unfold ret at 1, setenv; by unfold bind at 1, ret at 1.
Qed.

(** X24: on a command line [parse_args] accepts, with a backend, at least
    one query word, no [--deepseek-key] and an empty text for
    [--evaluate], [main] joins the words with spaces into the query,
    prints the answer header, the answer, the sources header and the
    numbered sources, and returns without any request after those of
    [rag_answer]. *)
Theorem main_without_evaluation w text argv args p q1 qs :
  DDGS w = Some text ->
  parse_args build_parser argv = inr args ->
  query args = q1 :: qs ->
  deepseek_key args = None ->
  truth (evaluate args) = false ->
  exists out p1,
    returns (Rag.rag_answer w (PStr (join " " (q1 :: qs))) (max_results args)
               (model args)) p out p1
    /\ returns (main w argv) p tt
         (mkProc (environ p1)
            (stdout p1
             ++ [[Text (nl +:+ "=== Generated Answer ===" +:+ nl)];
                 [Text (Rag.answer out)];
                 [Text (nl +:+ "=== Sources ===" +:+ nl)]]
             ++ imap (fun j s => source_row (1 + j) s) (Rag.sources out))
            (requests p1)).
Proof.
  intros Hw Hargs Hq Hkey Hev.
  destruct (main_body w text args (join " " (q1 :: qs)) p Hw)
    as (out & p1 & Hr & _ & _ & _ & Hbody).
  exists out, p1. split; [exact Hr|].
  unfold returns. rewrite (main_with_words w argv args p q1 qs Hargs Hq).
  rewrite Hkey. rewrite Hbody, Hev. reflexivity.
Qed.

Lemma main_without_evaluation_witness :
  let argv := [Positional "rust"; Positional "ownership"; OptEvaluate EmptyString] in
  let args := mkNamespace ["rust"; "ownership"] 5 "deepseek-chat" None
                (PStr EmptyString) "deepseek-chat" in
  exists out p1,
    returns (Rag.rag_answer Examples.offline
               (PStr (join " " ("rust" :: ["ownership"]))) (max_results args)
               (model args)) Examples.fresh out p1
    /\ returns (main Examples.offline argv) Examples.fresh tt
         (mkProc (environ p1)
            (stdout p1
             ++ [[Text (nl +:+ "=== Generated Answer ===" +:+ nl)];
                 [Text (Rag.answer out)];
                 [Text (nl +:+ "=== Sources ===" +:+ nl)]]
             ++ imap (fun j s => source_row (1 + j) s) (Rag.sources out))
            (requests p1)).
Proof.
  apply (main_without_evaluation Examples.offline Examples.two_items
           [Positional "rust"; Positional "ownership"; OptEvaluate EmptyString]
           (mkNamespace ["rust"; "ownership"] 5 "deepseek-chat" None
              (PStr EmptyString) "deepseek-chat")
           Examples.fresh "rust" ["ownership"]);
    reflexivity.
Defined.



Lemma main_with_input w argv args p l :
  positional_words argv = [] ->
  parse_args build_parser argv = inr args ->
  deepseek_key args = None ->
  stdin w = Some l ->
  main w argv p
  = (let* out := Rag.rag_answer w (PStr l) (max_results args) (model args) in
     print [Text (nl +:+ "=== Generated Answer ===" +:+ nl)] ;;
     print [Text (Rag.answer out)] ;;
     print [Text (nl +:+ "=== Sources ===" +:+ nl)] ;;
     print_sources 1 (Rag.sources out) ;;
     if truth (evaluate args) then evaluation_stage w args l out else ret tt)
      (mkProc (environ p) (stdout p ++ [[Text "Enter your query: "]])
         (requests p)).
Proof.
  intros Hq Hargs Hkey Hin.
  assert (Hinput : input w "Enter your query: " p
                   = (inr l, mkProc (environ p)
                               (stdout p ++ [[Text "Enter your query: "]])
                               (requests p))).
  { unfold input, bind, print. by rewrite Hin. }
  assert (Hwords : query args = []).
  { by rewrite (parse_args_stores _ _ _ Hargs), store_all_query, Hq. }
  rewrite (main_parsed w argv args p Hargs). rewrite Hwords, Hkey.
  unfold bind at 1, ret at 1. cbv beta iota.
  by rewrite (bind_returns _ _ _ _ _ Hinput).
Qed.

(** X26: with no positional word, [main] prints the prompt and searches
    for the line read from standard input. *)
Theorem main_reads_query_from_stdin w text argv args p l :
  DDGS w = Some text ->
  positional_words argv = [] ->
  parse_args build_parser argv = inr args ->
  deepseek_key args = None ->
  stdin w = Some l ->
  let final := snd (main w argv p) in
  [Text "Enter your query: "] ∈ stdout final
  /\ SearchRequest l "moderate" "m" ∈ requests final.
Proof.
  intros Hw Hq Hargs Hkey Hin final. subst final.
  rewrite (main_with_input w argv args p l Hq Hargs Hkey Hin).
  set (p0 := mkProc (environ p) (stdout p ++ [[Text "Enter your query: "]])
               (requests p)).
  destruct (main_body w text args l p0 Hw)
    as (out & p1 & Hr & _ & _ & [more Hreq] & Hbody).
  rewrite Hbody.
  pose proof (RagFacts.rag_answer_returns w text l (max_results args) (model args)
                p0 Hw) as (out' & p1' & Hr' & Hg & _).
  unfold returns in Hr, Hr'. rewrite Hr in Hr'. injection Hr' as <- <-.
  match goal with |- context [snd (?c ?p2)] =>
    pose proof (monotone_after_sources w args l out p2) as Hg2
  end.
  split.
  - eapply grows_stdout; [exact Hg2|]. simpl.
    apply elem_of_app. left.
    eapply grows_stdout; [exact Hg|]. subst p0. simpl.
    apply elem_of_app. right. by apply elem_of_cons; left.
  - destruct Hg2 as (_ & _ & [more2 Hm]). rewrite Hm. simpl. rewrite Hreq.
    apply elem_of_app. left. apply elem_of_app. right.
    by apply elem_of_cons; left.
Qed.

Lemma main_reads_query_from_stdin_witness :
  let final := snd (main (MoreExamples.typing "rust ownership") [] Examples.fresh) in
  [Text "Enter your query: "] ∈ stdout final
  /\ SearchRequest "rust ownership" "moderate" "m" ∈ requests final.
Proof.
  apply (main_reads_query_from_stdin (MoreExamples.typing "rust ownership")
           Examples.two_items [] build_parser Examples.fresh "rust ownership");
    reflexivity.
Defined.







End CliMore.
